(** * kover: a shallow embedding of the Kodi K19/K20 API compatibility shim

    Sources: [lib/kover/__init__.py] (version resolver and [patch]),
    [lib/kover/k20.py] (K19 API over a K20 host) and [lib/kover/k19.py]
    (K20 API over a K19 host).

    Python strings are modelled as Rocq [string]s (byte strings); [str.lower]
    and [str.isupper] are modelled on ASCII letters.  Python [float]s are
    binary64 primitive floats; [float(str)] rounds the decimal value of the
    literal to nearest-even through [SpecFloat]. *)

From Stdlib Require Import ZArith List String Ascii Bool Lia.
From Stdlib Require Import PrimFloat SpecFloat FloatOps DecimalString.
From Stdlib Require DecimalPos DecimalZ.
Import ListNotations.
Open Scope string_scope.
Open Scope Z_scope.
Set Warnings "-register-all".

(** ** Python values and exceptions *)

Inductive pyval : Type :=
| PNone
| PBool (b : bool)
| PInt (z : Z)
| PFloat (f : float)
| PStr (s : string)
| PList (l : list pyval)
| PTuple (l : list pyval)
| PDict (kv : list (string * pyval))
| PObj (ref : N).

Inductive exc : Type :=
| ValueError
| TypeError
| AttributeError (name : string)
| IndexError
| OverflowError
| NotImplementedError
| HostError (msg : string).

Inductive outcome (A : Type) : Type :=
| Ok (a : A)
| Raise (e : exc).
Arguments Ok {A} a.
Arguments Raise {A} e.

Definition obind {A B} (m : outcome A) (k : A -> outcome B) : outcome B :=
  match m with Ok a => k a | Raise e => Raise e end.
Notation "x <-? m ;; k" := (obind m (fun x => k))
  (at level 61, m at next level, right associativity).

(** Python truthiness ([bool(v)]). *)
Definition truthy (v : pyval) : bool :=
  match v with
  | PNone => false
  | PBool b => b
  | PInt z => negb (z =? 0)
  | PFloat f => negb (PrimFloat.eqb f 0%float)
  | PStr s => negb (String.eqb s "")
  | PList l | PTuple l => negb (Nat.eqb (List.length l) 0)
  | PDict kv => negb (Nat.eqb (List.length kv) 0)
  | PObj _ => true
  end.

(** ** String primitives ([str] methods on byte strings) *)

Definition is_digit (c : ascii) : bool :=
  let n := nat_of_ascii c in (48 <=? n)%nat && (n <=? 57)%nat.

Definition digit_val (c : ascii) : Z := Z.of_nat (nat_of_ascii c) - 48.

(** Python's [str.isspace] on one byte. *)
Definition is_space (c : ascii) : bool :=
  let n := nat_of_ascii c in
  ((9 <=? n)%nat && (n <=? 13)%nat) || ((28 <=? n)%nat && (n <=? 32)%nat).

Definition is_upper (c : ascii) : bool :=
  let n := nat_of_ascii c in (65 <=? n)%nat && (n <=? 90)%nat.

Definition lower_char (c : ascii) : ascii :=
  if is_upper c then ascii_of_nat (nat_of_ascii c + 32) else c.

(** [str.lower] *)
Fixpoint lower (s : string) : string :=
  match s with
  | EmptyString => EmptyString
  | String c s' => String (lower_char c) (lower s')
  end.

(** [str.startswith] *)
Definition startswith (s p : string) : bool := String.prefix p s.

(** [s.partition(c)[0]]: everything before the first [c]. *)
Fixpoint partition_head (c : ascii) (s : string) : string :=
  match s with
  | EmptyString => EmptyString
  | String d s' => if Ascii.eqb c d then EmptyString else String d (partition_head c s')
  end.

(** [s.split(c, n)]: at most [n] splits, from the left. *)
Fixpoint split_max (c : ascii) (n : nat) (s : string) : list string :=
  match s with
  | EmptyString => [EmptyString]
  | String d s' =>
      if Ascii.eqb c d then
        match n with
        | O => [s]
        | S n' => EmptyString :: split_max c n' s'
        end
      else
        match split_max c n s' with
        | w :: ws => String d w :: ws
        | [] => [String d EmptyString]
        end
  end.

(** [s.split(c)]: every occurrence splits. *)
Definition split_all (c : ascii) (s : string) : list string := split_max c (String.length s) s.

(** [s.count(c)] *)
Fixpoint count (c : ascii) (s : string) : nat :=
  match s with
  | EmptyString => O
  | String d s' => ((if Ascii.eqb c d then 1 else 0) + count c s')%nat
  end.

(** [s.replace(c, r)] for a one-character pattern [c]. *)
Fixpoint replace (c : ascii) (r : string) (s : string) : string :=
  match s with
  | EmptyString => EmptyString
  | String d s' => if Ascii.eqb c d then String.append r (replace c r s') else String d (replace c r s')
  end.

(** [s[i]] for a one-character result, raising [IndexError] out of range. *)
Definition char_at (s : string) (i : nat) : outcome ascii :=
  match String.get i s with Some c => Ok c | None => Raise IndexError end.

(** [s[a:b]] and [s[a:]] *)
Definition slice (a b : nat) (s : string) : string := substring a (b - a)%nat s.
Definition slice_from (a : nat) (s : string) : string := substring a (String.length s - a)%nat s.

Fixpoint strip_left (l : list ascii) : list ascii :=
  match l with
  | c :: l' => if is_space c then strip_left l' else l
  | [] => []
  end.

(** [str.strip()] on a character list. *)
Definition strip (l : list ascii) : list ascii := rev (strip_left (rev (strip_left l))).

(** ** [int(str)] and [float(str)]

    A decimal digit part: digits, single underscores allowed between two
    digits (PEP 515).  Returns the value, the number of digits and the rest. *)
Fixpoint digitpart_aux (acc : Z) (n : nat) (l : list ascii) : Z * nat * list ascii :=
  match l with
  | c :: l' =>
      if is_digit c then digitpart_aux (acc * 10 + digit_val c) (S n) l'
      else if Ascii.eqb c "_"%char && negb (Nat.eqb n 0) then
        match l' with
        | d :: l'' => if is_digit d then digitpart_aux (acc * 10 + digit_val d) (S n) l''
                      else (acc, n, l)
        | [] => (acc, n, l)
        end
      else (acc, n, l)
  | [] => (acc, n, [])
  end.

Definition digitpart (l : list ascii) : Z * nat * list ascii := digitpart_aux 0 O l.

Definition take_sign (l : list ascii) : bool * list ascii :=
  match l with
  | c :: l' => if Ascii.eqb c "-"%char then (true, l')
               else if Ascii.eqb c "+"%char then (false, l') else (false, l)
  | [] => (false, [])
  end.

(** [int(s)] for a string in base 10. *)
Definition py_int_of_string (s : string) : outcome Z :=
  let '(neg, l) := take_sign (strip (list_ascii_of_string s)) in
  let '(m, n, rest) := digitpart l in
  match n, rest with
  | S _, [] => Ok (if neg then - m else m)
  | _, _ => Raise ValueError
  end.

(** Correctly rounded (nearest-even) binary64 value of [(-1)^neg * m * 10^e]. *)
Definition decimal_to_float (neg : bool) (m e : Z) : float :=
  SF2Prim
    match m with
    | Zpos p =>
        if 0 <=? e then binary_normalize prec emax (cond_Zopp neg (Zpos p * 10 ^ e)) 0 neg
        else let '(mz, ez, lz) := SFdiv_core_binary prec emax (Zpos p) 0 (10 ^ (- e)) 0 in
             binary_round_aux prec emax neg mz ez lz
    | _ => S754_zero neg
    end.

Definition float_special (neg : bool) (l : list ascii) : option float :=
  let w := string_of_list_ascii (map lower_char l) in
  if String.eqb w "inf" || String.eqb w "infinity" then
    Some (if neg then PrimFloat.opp PrimFloat.infinity else PrimFloat.infinity)
  else if String.eqb w "nan" then Some PrimFloat.nan
  else None.

(** [float(s)]: [digits [. [digits]] | . digits], optional exponent. *)
Definition py_float_of_string (s : string) : outcome float :=
  let '(neg, l) := take_sign (strip (list_ascii_of_string s)) in
  match float_special neg l with
  | Some f => Ok f
  | None =>
      let '(ip, ni, r1) := digitpart l in
      let '(fp, nf, r2) :=
        match r1 with
        | c :: r => if Ascii.eqb c "."%char then digitpart r else (0, O, r1)
        | [] => (0, O, [])
        end in
      let dot_ok := match r1 with
                    | c :: _ => Ascii.eqb c "."%char || (negb (Nat.eqb ni 0))
                    | [] => negb (Nat.eqb ni 0) end in
      let mant := ip * 10 ^ Z.of_nat nf + fp in
      if Nat.eqb (ni + nf)%nat 0 || negb dot_ok then Raise ValueError else
      match r2 with
      | [] => Ok (decimal_to_float neg mant (- Z.of_nat nf))
      | c :: r =>
          if Ascii.eqb c "e"%char || Ascii.eqb c "E"%char then
            let '(eneg, r') := take_sign r in
            let '(ex, ne, r'') := digitpart r' in
            match ne, r'' with
            | S _, [] => Ok (decimal_to_float neg mant ((if eneg then - ex else ex) - Z.of_nat nf))
            | _, _ => Raise ValueError
            end
          else Raise ValueError
      end
  end.

(** [int(f)] for a float: truncation toward zero. *)
Definition py_int_of_float (f : float) : outcome Z :=
  match Prim2SF f with
  | S754_zero _ => Ok 0
  | S754_infinity _ => Raise OverflowError
  | S754_nan => Raise ValueError
  | S754_finite s m e =>
      let z := if 0 <=? e then Z.shiftl (Zpos m) e else Z.shiftr (Zpos m) (- e) in
      Ok (if s then - z else z)
  end.

Definition float_of_Z (z : Z) : float :=
  SF2Prim (binary_normalize prec emax z 0 false).

(** The [int(v)] builtin on the values the code passes it. *)
Definition py_int (v : pyval) : outcome Z :=
  match v with
  | PInt z => Ok z
  | PBool b => Ok (if b then 1 else 0)
  | PFloat f => py_int_of_float f
  | PStr s => py_int_of_string s
  | _ => Raise TypeError
  end.

(** The [float(v)] builtin on the values the code passes it. *)
Definition py_float (v : pyval) : outcome float :=
  match v with
  | PInt z => Ok (float_of_Z z)
  | PBool b => Ok (if b then 1%float else 0%float)
  | PFloat f => Ok f
  | PStr s => py_float_of_string s
  | _ => Raise TypeError
  end.

(** ** [lib/kover/__init__.py]: the version resolver *)

(** Python's lexicographic tuple [<]. *)
Fixpoint tuple_lt (xs ys : list Z) : bool :=
  match xs, ys with
  | [], [] => false
  | [], _ :: _ => true
  | _ :: _, [] => false
  | x :: xs', y :: ys' => if x =? y then tuple_lt xs' ys' else x <? y
  end.

Fixpoint map_outcome {A B} (f : A -> outcome B) (l : list A) : outcome (list B) :=
  match l with
  | [] => Ok []
  | a :: l' => b <-? f a ;; bs <-? map_outcome f l' ;; Ok (b :: bs)
  end.

(** [version_info_type] applied to the parsed integers: [minor] and [build] default to 0. *)
Definition version_info_type (args : list Z) : outcome (Z * Z * Z) :=
  match args with
  | [a] => Ok (a, 0, 0)
  | [a; b] => Ok (a, b, 0)
  | [a; b; c] => Ok (a, b, c)
  | _ => Raise TypeError
  end.

(** [get_kodi_version_info()], given the value of
    [xbmc.getInfoLabel('System.BuildVersion')] ([None] for a falsy result
    other than the empty string). *)
Definition get_kodi_version_info (label : option string) : outcome (Z * Z * Z) :=
  let default := "20" in
  let ver := match label with
             | Some s => if String.eqb s "" then default else s
             | None => default
             end in
  let parts := firstn 3 (split_max "."%char 3 (partition_head " "%char ver)) in
  ints <-? map_outcome (fun v => py_int_of_string (partition_head "-"%char v)) parts ;;
  version_info_type ints.

(** The module-level [version] computed from [version_info]. *)
Definition version (vi : Z * Z * Z) : Z :=
  let '(major, minor, build) := vi in
  if tuple_lt [major; minor; build] [18; 9; 701] then major
  else if tuple_lt [major; minor; build] [19; 90] then 19
  else major + (if 90 <=? minor then 1 else 0).

Definition resolve_version (label : option string) : outcome Z :=
  vi <-? get_kodi_version_info label ;; Ok (version vi).

(** The three-way epoch rule as the specification words it (§4.1). *)
Definition spec_effective_major (major minor build : Z) : Z :=
  if (major <? 18) || ((major =? 18) && ((minor <? 9) || ((minor =? 9) && (build <? 701))))
  then major
  else if (major <? 19) || ((major =? 19) && (minor <? 90)) then 19
  else if 90 <=? minor then major + 1 else major.

(** ** [lib/kover/k20.py]: coercion helpers

    Neither helper uses its [tag] argument; it is left out. *)

(** [int_or_none(tag, value)] *)
Definition int_or_none (value : pyval) : outcome pyval :=
  let fallback (v : pyval) :=
    if truthy v then (z <-? py_int v ;; Ok (PInt z)) else Ok (PInt (-1)) in
  match value with
  | PInt _ | PBool _ => Ok value
  | PStr s =>
      let s' := replace ","%char "" s in
      if (0 <? count "."%char s')%nat then
        f <-? py_float (PStr s') ;;
        z <-? py_int_of_float (PrimFloat.add f 0.5%float) ;;
        Ok (PInt z)
      else fallback (PStr s')
  | _ => fallback value
  end.

(** [float_or_none(tag, value)] *)
Definition float_or_none (value : pyval) : outcome pyval :=
  let fallback (v : pyval) :=
    if truthy v then (f <-? py_float v ;; Ok (PFloat f)) else Ok (PInt (-1)) in
  match value with
  | PInt _ | PBool _ | PFloat _ => Ok value
  | PStr s =>
      if (Nat.eqb (count ","%char s) 1) && (Nat.eqb (count "."%char s) 0)
      then fallback (PStr (replace ","%char "." s))
      else fallback (PStr s)
  | _ => fallback value
  end.

(** ** Host interaction

    The Kodi host ([xbmc], [xbmcgui]) is external.  Every call the shim
    makes into it is a [call] (receiver, method name, positional and
    keyword arguments); a host is any function answering a call in a host
    world [W].  The interpreter state also records the calls made, in
    order, and the lines printed to [stderr].  As in Python, a raised
    exception does not undo the effects that precede it. *)

Record call : Type := mkCall {
  recv : pyval;
  meth : string;
  args : list pyval;
  kwargs : list (string * pyval)
}.

(** The transformation steps of [info_label_keys]: a setter name, or one of
    the module's helper functions. *)
Inductive helper : Type :=
| one_or_more
| int_or_none_h
| float_or_none_h
| set_cast_and_role
| set_cast
| set_imdb_number
| set_exif_resolution.

Inductive op : Type :=
| OpSetter (name : string)
| OpFun (f : helper).

(** The [print] in the [except] clause of [ListItem.setInfo]:
    [Incorrect K20 setInfo: {key} -> {op!r}: {exc!r}]. *)
Record logline : Type := SetInfoError { log_key : string; log_op : op; log_exc : exc }.

Section Host.

Variable W : Type.
Variable host : W -> call -> outcome pyval * W.
(** [str(v)] for the values whose [str] the model does not spell out
    (floats, containers, objects). *)
Variable str_other : pyval -> string.

Record st : Type := mkSt { world : W; calls : list call; stderr : list logline }.

Definition M (A : Type) : Type := st -> outcome A * st.

Definition ret {A} (a : A) : M A := fun s => (Ok a, s).
Definition bind {A B} (m : M A) (k : A -> M B) : M B :=
  fun s => match m s with
           | (Ok a, s') => k a s'
           | (Raise e, s') => (Raise e, s')
           end.
Definition throw {A} (e : exc) : M A := fun s => (Raise e, s).
Definition lift {A} (o : outcome A) : M A := fun s => (o, s).

Local Notation "x <- m ;; k" := (bind m (fun x => k))
  (at level 61, m at next level, right associativity).

(** [try: m except Exception as exc: handler(exc); raise] *)
Definition reraise {A} (m : M A) (handler : exc -> M unit) : M A :=
  fun s => match m s with
           | (Raise e, s') => match handler e s' with
                              | (Ok _, s'') => (Raise e, s'')
                              | (Raise e', s'') => (Raise e', s'')
                              end
           | r => r
           end.

Definition log (l : logline) : M unit :=
  fun s => (Ok tt, mkSt (world s) (calls s) (stderr s ++ [l])).

(** One call into the host. *)
Definition hcall (r : pyval) (m : string) (a : list pyval) : M pyval :=
  fun s => let c := mkCall r m a [] in
           let '(o, w') := host (world s) c in
           (o, mkSt w' (calls s ++ [c]) (stderr s)).

Definition hcall_kw (r : pyval) (m : string) (a : list pyval) (kw : list (string * pyval)) : M pyval :=
  fun s => let c := mkCall r m a kw in
           let '(o, w') := host (world s) c in
           (o, mkSt w' (calls s ++ [c]) (stderr s)).

Fixpoint mapM {A B} (f : A -> M B) (l : list A) : M (list B) :=
  match l with
  | [] => ret []
  | a :: l' => b <- f a ;; bs <- mapM f l' ;; ret (b :: bs)
  end.

(** [str(v)] *)
Definition py_str (v : pyval) : string :=
  match v with
  | PStr s => s
  | PInt z => NilZero.string_of_int (Z.to_int z)
  | PBool b => if b then "True" else "False"
  | PNone => "None"
  | _ => str_other v
  end.

(** Iteration ([for a in v]) over the iterables the helpers receive. *)
Definition py_iter (v : pyval) : outcome (list pyval) :=
  match v with
  | PList l | PTuple l => Ok l
  | PStr s => Ok (map (fun c => PStr (String c EmptyString)) (list_ascii_of_string s))
  | PDict kv => Ok (map (fun kv => PStr (fst kv)) kv)
  | _ => Raise TypeError
  end.

(** [v[0]] on a non-empty sequence. *)
Definition py_first (v : pyval) : outcome pyval :=
  match v with
  | PList (a :: _) | PTuple (a :: _) => Ok a
  | PStr (String c _) => Ok (PStr (String c EmptyString))
  | PList [] | PTuple [] | PStr EmptyString => Raise IndexError
  | PDict _ => Raise (HostError "KeyError")
  | _ => Raise TypeError
  end.

Definition xbmc : pyval := PStr "xbmc".

(** [Actor( *a)] *)
Definition actor_pos (a : pyval) : M pyval :=
  l <- lift (py_iter a) ;; hcall xbmc "Actor" l.

(** [Actor( **a)] *)
Definition actor_kw (a : pyval) : M pyval :=
  match a with
  | PDict kv => hcall_kw xbmc "Actor" [] kv
  | _ => throw TypeError
  end.

(** The helper functions of [k20.py], as called by [setInfo]: [f(tag, value)]. *)
Definition run_helper (f : helper) (tag value : pyval) : M pyval :=
  match f with
  | one_or_more =>
      match value with
      | PTuple _ | PList _ => ret value
      | _ => ret (PList [value])
      end
  | int_or_none_h => lift (int_or_none value)
  | float_or_none_h => lift (float_or_none value)
  | set_cast_and_role =>
      l <- lift (py_iter value) ;;
      actors <- mapM actor_pos l ;;
      _ <- hcall tag "setCast" [PList actors] ;; ret PNone
  | set_cast =>
      if truthy value then
        a0 <- lift (py_first value) ;;
        l <- lift (py_iter value) ;;
        actors <- (match a0 with
                   | PDict _ => mapM actor_kw l
                   | _ => mapM actor_pos l
                   end) ;;
        _ <- hcall tag "setCast" [PList actors] ;; ret PNone
      else ret PNone
  | set_imdb_number =>
      _ <- hcall tag "setUniqueID" [PStr (py_str value); PStr "imdb"] ;; ret PNone
  | set_exif_resolution =>
      match value with
      | PStr res =>
          match split_all ","%char res with
          | [w; h] =>
              wi <- lift (py_int_of_string w) ;;
              hi <- lift (py_int_of_string h) ;;
              _ <- hcall tag "setResolution" [PInt wi; PInt hi] ;; ret PNone
          | _ => throw ValueError
          end
      | _ => throw (AttributeError "split")
      end
  end.

(** [info_label_keys] *)
Definition info_label_keys : list (string * list op) := [
  (* video *)
  ("aired", [OpSetter "setFirstAired"]);
  ("album", [OpSetter "setAlbum"]);
  ("artist", [OpSetter "setArtists"]);
  ("castandrole", [OpFun set_cast_and_role]);
  ("cast", [OpFun set_cast]);
  ("code", [OpSetter "setProductionCode"]);
  ("country", [OpFun one_or_more; OpSetter "setCountries"]);
  ("credits", [OpFun one_or_more; OpSetter "setWriters"]);
  ("dateadded", [OpSetter "setDateAdded"]);
  ("dbid", [OpFun int_or_none_h; OpSetter "setDbId"]);
  ("director", [OpFun one_or_more; OpSetter "setDirectors"]);
  ("duration", [OpFun int_or_none_h; OpSetter "setDuration"]);
  ("episodeguide", [OpSetter "setEpisodeGuide"]);
  ("episode", [OpFun int_or_none_h; OpSetter "setEpisode"]);
  ("genre", [OpFun one_or_more; OpSetter "setGenres"]);
  ("imdbnumber", [OpFun set_imdb_number]);
  ("lastplaye", [OpSetter "setLastPlayed"]);
  ("mediatype", [OpSetter "setMediaType"]);
  ("mpaa", [OpSetter "setMpaa"]);
  ("originaltitle", [OpSetter "setOriginalTitle"]);
  ("path", [OpSetter "setPath"]);
  ("playcount", [OpFun int_or_none_h; OpSetter "setPlaycount"]);
  ("plotoutline", [OpSetter "setPlotOutline"]);
  ("plot", [OpSetter "setPlot"]);
  ("premiered", [OpSetter "setPremiered"]);
  ("rating", [OpFun float_or_none_h; OpSetter "setRating"]);
  ("season", [OpFun int_or_none_h; OpSetter "setSeason"]);
  ("setid", [OpFun int_or_none_h; OpSetter "setSetId"]);
  ("setoverview", [OpSetter "setSetOverview"]);
  ("set", [OpSetter "setSet"]);
  ("showlink", [OpFun one_or_more; OpSetter "setShowLinks"]);
  ("sortepisode", [OpFun int_or_none_h; OpSetter "setSortEpisode"]);
  ("sortseason", [OpFun int_or_none_h; OpSetter "setSortSeason"]);
  ("sorttitle", [OpSetter "setSortTitle"]);
  ("status", [OpSetter "setTvShowStatus"]);
  ("studio", [OpFun one_or_more; OpSetter "setStudios"]);
  ("tagline", [OpSetter "setTagLine"]);
  ("tag", [OpFun one_or_more; OpSetter "setTags"]);
  ("title", [OpSetter "setTitle"]);
  ("top250", [OpFun int_or_none_h; OpSetter "setTop250"]);
  ("tracknumber", [OpFun int_or_none_h; OpSetter "setTrackNumber"]);
  ("trailer", [OpSetter "setTrailer"]);
  ("tvshowtitle", [OpSetter "setTvShowTitle"]);
  ("userrating", [OpFun int_or_none_h; OpSetter "setUserRating"]);
  ("votes", [OpFun int_or_none_h; OpSetter "setVotes"]);
  ("watched", [OpFun int_or_none_h; OpSetter "setPlaycount"]);
  ("writer", [OpFun one_or_more; OpSetter "setWriters"]);
  ("year", [OpFun int_or_none_h; OpSetter "setYear"]);
  (* music (if not defined above already) *)
  ("comment", [OpSetter "setComment"]);
  ("discnumber", [OpSetter "setDisc"]);
  ("listeners", [OpFun int_or_none_h; OpSetter "setListeners"]);
  ("lyrics", [OpSetter "setLyrics"]);
  ("musicbrainzalbumartistid", [OpSetter "setMusicBrainzAlbumArtistID"]);
  ("musicbrainzalbumid", [OpSetter "setMusicBrainzAlbumID"]);
  ("musicbrainzartistid", [OpSetter "setMusicBrainzArtistID"]);
  ("musicbrainztrackid", [OpSetter "setMusicBrainzTrackID"]);
  (* picture (if not defined above already) *)
  ("exif:resolution", [OpFun set_exif_resolution]);
  ("exif:exiftime", [OpSetter "setDateTimeTaken"]);
  (* game (if not defined above already) *)
  ("developer", [OpSetter "setDeveloper"]);
  ("gameclient", [OpSetter "setGameClient"]);
  ("genres", [OpSetter "setGenres"]);
  ("overview", [OpSetter "setOverview"]);
  ("platform", [OpSetter "setPlatform"]);
  ("publisher", [OpSetter "setPublisher"])
].

(** [d.get(k)] on an association list with unique keys. *)
Fixpoint dict_get {A} (k : string) (d : list (string * A)) : option A :=
  match d with
  | [] => None
  | (k', v) :: d' => if String.eqb k k' then Some v else dict_get k d'
  end.

(** [d[k] = v]: replaces in place, or appends a new key. *)
Fixpoint dict_set {A} (k : string) (v : A) (d : list (string * A)) : list (string * A) :=
  match d with
  | [] => [(k, v)]
  | (k', v') :: d' => if String.eqb k k' then (k, v) :: d' else (k', v') :: dict_set k v d'
  end.

(** [str.capitalize] *)
Definition capitalize (s : string) : string :=
  match s with
  | EmptyString => EmptyString
  | String c s' =>
      let n := nat_of_ascii c in
      String (if ((97 <=? n)%nat && (n <=? 122)%nat) then ascii_of_nat (n - 32) else c) (lower s')
  end.

(** One step of a transformation chain. *)
Definition apply_op (tag : pyval) (o : op) (value : pyval) : M pyval :=
  match o with
  | OpSetter name => hcall tag name [value]
  | OpFun f => run_helper f tag value
  end.

(** [for op in operations: try ... except Exception: print(...); raise] *)
Fixpoint run_ops (key : string) (tag : pyval) (ops : list op) (value : pyval) : M pyval :=
  match ops with
  | [] => ret value
  | o :: ops' =>
      value' <- reraise (apply_op tag o value) (fun e => log (SetInfoError key o e)) ;;
      run_ops key tag ops' value'
  end.

(** The loop of [ListItem.setInfo]: known keys run their chain, the others
    are collected into [labels]. *)
Fixpoint set_info_items (tag : pyval) (items : list (string * pyval))
    (labels : list (string * pyval)) : M (list (string * pyval)) :=
  match items with
  | [] => ret labels
  | (key, value) :: items' =>
      match dict_get (lower key) info_label_keys with
      | None => set_info_items tag items' (dict_set key value labels)
      | Some ops => _ <- run_ops key tag ops value ;; set_info_items tag items' labels
      end
  end.

(** k20 [ListItem.setInfo(type, infoLabels)] on the item [self]; calls on
    [self] are the host's ([super()]) methods. *)
Definition setInfo (self : pyval) (type : string) (infoLabels : list (string * pyval)) : M pyval :=
  let type := capitalize type in
  tag <- hcall self ("get" ++ type ++ "InfoTag") [] ;;
  labels <- set_info_items tag infoLabels [] ;;
  match labels with
  | [] => ret PNone
  | _ => _ <- hcall self "setInfo" [PStr type; PDict labels] ;; ret PNone
  end.

(** The attributes of a k20 [ListItem] that the code reads and writes. *)
Record ListItem20 : Type := mkListItem20 {
  li_self : pyval;
  resume_time : pyval;
  resume_total_time : pyval
}.

(** [ListItem.__init__]: both resume attributes start as [None]. *)
Definition new_ListItem20 (self : pyval) : ListItem20 := mkListItem20 self PNone PNone.

Definition is_none (v : pyval) : bool := match v with PNone => true | _ => false end.

(** k20 [ListItem.getRating(key)] *)
Definition getRating (li : ListItem20) (key : string) : M pyval :=
  tag <- hcall (li_self li) "getVideoInfoTag" [] ;; hcall tag "getRating" [PStr key].

(** k20 [ListItem.getVotes(key)] *)
Definition getVotes (li : ListItem20) (key : string) : M pyval :=
  tag <- hcall (li_self li) "getVideoInfoTag" [] ;; hcall tag "getRating" [PStr key].

(** k20 [ListItem.getProperty(key)] *)
Definition getProperty (li : ListItem20) (key : string) : M pyval :=
  let lower_key := lower key in
  if String.eqb lower_key "resumetime" then
    tag <- hcall (li_self li) "getVideoInfoTag" [] ;; hcall tag "getResumeTime" []
  else if String.eqb lower_key "totaltime" then
    tag <- hcall (li_self li) "getVideoInfoTag" [] ;; hcall tag "getResumeTimeTotal" []
  else hcall (li_self li) "getProperty" [PStr key].

(** k20 [ListItem._set_resume_point()] *)
Definition _set_resume_point (li : ListItem20) : M pyval :=
  if negb (is_none (resume_time li)) then
    if is_none (resume_total_time li) then
      tag <- hcall (li_self li) "getVideoInfoTag" [] ;;
      hcall tag "setResumePoint" [resume_total_time li]
    else
      tag <- hcall (li_self li) "getVideoInfoTag" [] ;;
      hcall tag "setResumePoint" [resume_total_time li; resume_total_time li]
  else ret PNone.

(** k20 [ListItem.setProperty(key, value)]: the item after the assignment,
    and the returned value. *)
Definition setProperty (li : ListItem20) (key : string) (value : pyval) : M (ListItem20 * pyval) :=
  let lower_key := lower key in
  if String.eqb lower_key "resumetime" then
    let li' := mkListItem20 (li_self li) value (resume_total_time li) in
    r <- _set_resume_point li' ;; ret (li', r)
  else if String.eqb lower_key "totaltime" then
    let li' := mkListItem20 (li_self li) (resume_time li) value in
    r <- _set_resume_point li' ;; ret (li', r)
  else
    _ <- hcall (li_self li) "setProperty" [PStr key; value] ;; ret (li, PNone).

(** ** [lib/kover/k19.py]: [InfoTagWrapper] *)

(** [str.isupper] *)
Definition isupper (s : string) : bool :=
  let l := list_ascii_of_string s in
  existsb is_upper l &&
  forallb (fun c => negb ((97 <=? nat_of_ascii c)%nat && (nat_of_ascii c <=? 122)%nat)) l.

Record InfoTagWrapper : Type := mkInfoTagWrapper {
  _self_list_item : pyval;
  _self_sync : bool;
  _self_data : list (string * pyval);
  _type : string
}.

(** [InfoTagWrapper.__init__(info_tag, list_item=..., list_item_self_sync=...)]
    for a subclass whose [_type] is [ty]. *)
Definition new_InfoTagWrapper (ty : string) (list_item : pyval) (sync : bool) : InfoTagWrapper :=
  mkInfoTagWrapper list_item (sync && negb (is_none list_item)) [] ty.

(** What [InfoTagWrapper.__getattr__] returns: an attribute of the list item,
    or the [setter] closure.  The closure reads [key] after the rebinding
    [key = key[3:].lower()], so it carries the lowered field name. *)
Inductive wrapper_attr : Type :=
| ItemAttr (name : string)
| TagSetter (field : string).

(** [_METHODS] is empty. *)
Definition _METHODS : list (string * string) := [].

(** [InfoTagWrapper.__getattr__(key)]; [item_has key] tells whether
    [getattr(self._self_list_item, key, None)] is not [None]. *)
Definition wrapper_getattr (item_has : string -> bool) (key : string) : outcome wrapper_attr :=
  let key := match dict_get key _METHODS with Some k => k | None => key end in
  if item_has key then Ok (ItemAttr key)
  else if startswith key "set" && isupper (slice 3 4 key) then
    Ok (TagSetter (lower (slice_from 3 key)))
  else Raise (AttributeError key).

(** Calling the [setter] closure: the side-table is written first, then
    (when synchronised) the list item's bulk [setInfo] is called. *)
Definition wrapper_setter (t : InfoTagWrapper) (field : string) (value : pyval)
    : InfoTagWrapper * M pyval :=
  let t' := mkInfoTagWrapper (_self_list_item t) (_self_sync t)
                             (dict_set field value (_self_data t)) (_type t) in
  (t', if _self_sync t then
         _ <- hcall (_self_list_item t) "setInfo" [PStr (_type t); PDict [(field, value)]] ;;
         ret PNone
       else ret PNone).

End Host.

Arguments mkSt {W} world calls stderr.
Arguments world {W} _.
Arguments calls {W} _.
Arguments stderr {W} _.

(** ** [lib/kover/k19.py]: [GetSetMixin] and the dataclass records *)

(** An instance: the names its class defines, and its instance dictionary. *)
Record pyobj : Type := mkObj { cls_attrs : list string; inst : list (string * pyval) }.

(** Result of an attribute access on a [GetSetMixin] instance.  The
    [getter]/[setter] closures read [key] after its rebinding, so they carry
    the derived field name. *)
Inductive mixin_attr : Type :=
| AVal (v : pyval)
| AClassAttr (name : string)
| AGetter (field : string)
| ASetter (field : string).

(** [GetSetMixin.__getattr__(key)] *)
Definition mixin_getattr (key : string) : outcome mixin_attr :=
  if startswith key "get" && isupper (slice 3 4 key) then
    c <-? char_at key 3 ;; Ok (AGetter (String (lower_char c) (slice_from 4 key)))
  else if startswith key "set" then
    c <-? char_at key 3 ;; Ok (ASetter (String (lower_char c) (slice_from 4 key)))
  else Raise (AttributeError key).

(** [getattr(obj, key)]: the instance dictionary, then the class, then
    [__getattr__]. *)
Definition obj_getattr (o : pyobj) (key : string) : outcome mixin_attr :=
  match dict_get key (inst o) with
  | Some v => Ok (AVal v)
  | None => if existsb (String.eqb key) (cls_attrs o) then Ok (AClassAttr key)
            else mixin_getattr key
  end.

(** Calling [getter()]: [getattr(self, key)]. *)
Definition call_getter (o : pyobj) (field : string) : outcome mixin_attr := obj_getattr o field.

(** Calling [setter(value)]: [setattr(self, key, value)]. *)
Definition call_setter (o : pyobj) (field : string) (value : pyval) : pyobj :=
  mkObj (cls_attrs o) (dict_set field value (inst o)).

(** The names the [Actor] dataclass defines (its fields' defaults, the
    generated methods, [GetSetMixin.__getattr__]) and those of [object]. *)
Definition Actor_class_attrs : list string :=
  ["name"; "role"; "order"; "thumbnail";
   "__init__"; "__repr__"; "__eq__"; "__hash__"; "__match_args__";
   "__dataclass_fields__"; "__dataclass_params__"; "__annotations__";
   "__doc__"; "__module__"; "__dict__"; "__weakref__"; "__getattr__";
   "__class__"; "__delattr__"; "__dir__"; "__format__"; "__ge__";
   "__getattribute__"; "__getstate__"; "__gt__"; "__init_subclass__";
   "__le__"; "__lt__"; "__ne__"; "__new__"; "__reduce__"; "__reduce_ex__";
   "__setattr__"; "__sizeof__"; "__str__"; "__subclasshook__"].

(** [Actor(name, role, order, thumbnail)] *)
Definition Actor (name role : string) (order : Z) (thumbnail : string) : pyobj :=
  mkObj Actor_class_attrs
        [("name", PStr name); ("role", PStr role); ("order", PInt order);
         ("thumbnail", PStr thumbnail)].

(** ** [_patch()] in [k19.py] and [k20.py], and [patch()] in [__init__.py] *)

(** The bindings of the host modules that [_patch] reads or rebinds. *)
Record host_ns : Type := mkNs {
  xbmc__patched_by_kover : option pyval;
  xbmc_Actor : string;
  xbmc_VideoStreamDetail : string;
  xbmc_AudioStreamDetail : string;
  xbmc_SubtitleStreamDetail : string;
  xbmcgui_ListItem : string
}.

(** [getattr(xbmc, '_patched_by_kover', None)] as a truth value. *)
Definition patched (ns : host_ns) : bool :=
  match xbmc__patched_by_kover ns with Some v => truthy v | None => false end.

(** [k19._patch()] *)
Definition _patch19 (ns : host_ns) : host_ns :=
  if negb (patched ns) then
    mkNs (Some (PBool true)) "kover.k19.Actor" "kover.k19.VideoStreamDetail"
         "kover.k19.AudioStreamDetail" "kover.k19.SubtitleStreamDetail" "kover.k19.ListItem"
  else ns.

(** [k20._patch()] *)
Definition _patch20 (ns : host_ns) : host_ns :=
  if negb (patched ns) then
    mkNs (Some (PBool true)) (xbmc_Actor ns) (xbmc_VideoStreamDetail ns)
         (xbmc_AudioStreamDetail ns) (xbmc_SubtitleStreamDetail ns) "kover.k20.ListItem"
  else ns.

(** [patch()]: the [_patch] of the module imported for [version]. *)
Definition patch (version : Z) (ns : host_ns) : host_ns :=
  if version <? 20 then _patch19 ns else _patch20 ns.

(** Activation requests made one after the other, each for some version. *)
Definition patch_all (versions : list Z) (ns : host_ns) : host_ns :=
  fold_left (fun ns v => patch v ns) versions ns.

(** The host's own bindings, before any patching. *)
Definition host_ns0 : host_ns :=
  mkNs None "xbmc.Actor" "xbmc.VideoStreamDetail" "xbmc.AudioStreamDetail"
       "xbmc.SubtitleStreamDetail" "xbmcgui.ListItem".

(** ** An example host

    A host keeping, per object reference, a table of fields: [setXxx(v)]
    stores [v] under ["xxx"], [getXxx()] reads it back ([None] when absent),
    [setInfo(type, d)] merges the dictionary [d], and [getVideoInfoTag()] on
    object [n] returns object [n + 1].  It is used to run the code on
    concrete inputs. *)

Definition store : Type := list (N * list (string * pyval)).

Fixpoint store_get (n : N) (w : store) : list (string * pyval) :=
  match w with
  | [] => []
  | (m, d) :: w' => if N.eqb n m then d else store_get n w'
  end.

Fixpoint store_put (n : N) (d : list (string * pyval)) (w : store) : store :=
  match w with
  | [] => [(n, d)]
  | (m, d') :: w' => if N.eqb n m then (n, d) :: w' else (m, d') :: store_put n d w'
  end.

Definition merge (d fs : list (string * pyval)) : list (string * pyval) :=
  fold_left (fun acc kv => dict_set (fst kv) (snd kv) acc) d fs.

Definition store_host (w : store) (c : call) : outcome pyval * store :=
  match recv c with
  | PObj n =>
      let fs := store_get n w in
      if String.eqb (meth c) "getVideoInfoTag" then (Ok (PObj (n + 1)), w)
      else if String.eqb (meth c) "setInfo" then
        match args c with
        | [PStr _; PDict d] => (Ok PNone, store_put n (merge d fs) w)
        | _ => (Raise TypeError, w)
        end
      else if startswith (meth c) "set" then
        match args c with
        | [v] => (Ok PNone, store_put n (dict_set (lower (slice_from 3 (meth c))) v fs) w)
        | _ => (Ok PNone, w)
        end
      else if startswith (meth c) "get" then
        (Ok (match dict_get (lower (slice_from 3 (meth c))) fs with Some v => v | None => PNone end), w)
      else (Ok PNone, w)
  | _ => (Raise (AttributeError (meth c)), w)
  end.

(** The legacy bulk-label query of the example host: the label [field] of
    object [n]. *)
Definition store_label (w : store) (n : N) (field : string) : option pyval :=
  dict_get field (store_get n w).

Definition no_str (v : pyval) : string := "".

(** ** Reasoning about host interaction *)

(** [m] leaves [stderr] alone and only appends calls satisfying [P]. *)
Definition appends {W A} (P : call -> Prop) (m : M W A) : Prop :=
  forall s r s', m s = (r, s') ->
    stderr s' = stderr s /\ exists l, calls s' = (calls s ++ l)%list /\ Forall P l.

(** A call other than the bulk [setInfo]. *)
Definition not_setInfo (c : call) : Prop := meth c <> "setInfo".

(** A transformation step that does not name [setInfo]. *)
Definition op_okb (o : op) : bool :=
  match o with OpSetter n => negb (String.eqb n "setInfo") | OpFun _ => true end.

(** ** [lib/kover/k20.py]: the remaining [ListItem] methods and tag wrappers *)

Section Adapters.
Context {W : Type} (host : W -> call -> outcome pyval * W) (so : pyval -> string).

Local Notation "x <- m ;; k" := (bind W m (fun x => k))
  (at level 61, m at next level, right associativity).
Local Abbreviation hc := (hcall W host).
Local Abbreviation hc_kw := (hcall_kw W host).
Local Abbreviation ret := (ret W).

(** k20 [InfoTagMusicWrapper.getGenre()]: the proxy forwards [getGenres] to
    the wrapped host tag [inner]. *)
Definition music_getGenre (inner : pyval) : M W pyval :=
  lst <- hc inner "getGenres" [] ;;
  if truthy lst then lift W (py_first lst) else ret (PStr "").

(** k20 [InfoTagVideoWrapper.getGenre()]: no [return] when the list is empty. *)
Definition video_getGenre (inner : pyval) : M W pyval :=
  genres <- hc inner "getGenres" [] ;;
  if truthy genres then lift W (py_first genres) else ret PNone.

(** k20 [InfoTagVideoWrapper.getDirector()] *)
Definition video_getDirector (inner : pyval) : M W pyval :=
  lst <- hc inner "getDirectors" [] ;;
  if truthy lst then lift W (py_first lst) else ret (PStr "").

(** k20 [InfoTagVideoWrapper.getWritingCredits()] *)
Definition video_getWritingCredits (inner : pyval) : M W pyval :=
  lst <- hc inner "getWriters" [] ;;
  if truthy lst then lift W (py_first lst) else ret (PStr "").

(** One line of [getCast]: [f'{a.getName()}: {a.getRole()}']. *)
Definition cast_line (a : pyval) : M W string :=
  n <- hc a "getName" [] ;;
  r <- hc a "getRole" [] ;;
  ret (py_str so n ++ ": " ++ py_str so r).

(** k20 [InfoTagVideoWrapper.getCast()]: ['\n'.join(...)]. *)
Definition video_getCast (inner : pyval) : M W pyval :=
  actors <- hc inner "getActors" [] ;;
  l <- lift W (py_iter actors) ;;
  lines <- mapM W cast_line l ;;
  ret (PStr (String.concat (String "010"%char EmptyString) lines)).

(** k20 [ListItem.addAvailableArtwork(url, art_type, preview, referrer,
    cache, post, isgz, season)]: [season] is converted before the host is
    called. *)
Definition addAvailableArtwork (li : ListItem20)
    (url art_type preview referrer cache post isgz season : pyval) : M W pyval :=
  season' <- (if truthy season then (z <- lift W (py_int season) ;; ret (PInt z))
              else ret (PInt (-1))) ;;
  tag <- hc (li_self li) "getVideoInfoTag" [] ;;
  hc_kw tag "addAvailableArtwork" [url]
    [("art_type", art_type); ("preview", preview); ("referrer", referrer);
     ("cache", cache); ("post", post); ("isgz", isgz); ("season", season')].

(** [cls( **values)] for a host stream-detail class of [xbmc]. *)
Definition stream_detail (cls : string) (values : pyval) : M W pyval :=
  match values with
  | PDict kv => hc_kw xbmc cls [] kv
  | _ => throw W TypeError
  end.

(** k20 [ListItem.addStreamInfo(type, values)]: the tag is fetched before
    [type] is tested. *)
Definition addStreamInfo (li : ListItem20) (type : string) (values : pyval) : M W pyval :=
  vtag <- hc (li_self li) "getVideoInfoTag" [] ;;
  if String.eqb type "video" then
    d <- stream_detail "VideoStreamDetail" values ;; _ <- hc vtag "addVideoStream" [d] ;; ret PNone
  else if String.eqb type "audio" then
    d <- stream_detail "AudioStreamDetail" values ;; _ <- hc vtag "addAudioStream" [d] ;; ret PNone
  else if String.eqb type "subtitle" then
    d <- stream_detail "SubtitleStreamDetail" values ;; _ <- hc vtag "addSubtitleStream" [d] ;; ret PNone
  else throw W ValueError.

(** k20 [ListItem.setCast(actors)]: [[Actor( **a) for a in actors]] is built
    before the tag is fetched. *)
Definition setCast20 (li : ListItem20) (actors : pyval) : M W pyval :=
  l <- lift W (py_iter actors) ;;
  acts <- mapM W (actor_kw W host) l ;;
  tag <- hc (li_self li) "getVideoInfoTag" [] ;;
  hc tag "setCast" [PList acts].

(** k20 [ListItem.setUniqueIDs(values, defaultrating='')] is declared
    without [self]: a call [item.setUniqueIDs( *args)] binds the item itself
    to [values] and the first argument to [defaultrating].  The zero-argument
    [super()] takes the first parameter, the item. *)
Definition setUniqueIDs_call (li : ListItem20) (a : list pyval) : M W pyval :=
  let body (values defaultrating : pyval) :=
    tag <- hc values "getVideoInfoTag" [] ;;
    hc tag "setUniqueIDs" [values; if truthy defaultrating then defaultrating else PStr ""] in
  match li_self li :: a with
  | [values] => body values (PStr "")
  | [values; defaultrating] => body values defaultrating
  | _ => throw W TypeError
  end.

(** The loop of k20 [ListItem.setProperties(values)]: the resume values are
    assigned to the item, the other pairs collected into [vals]. *)
Fixpoint set_properties_loop (li : ListItem20) (items : list (string * pyval))
    (vals : list (string * pyval)) (resume_point : bool)
    : ListItem20 * list (string * pyval) * bool :=
  match items with
  | [] => (li, vals, resume_point)
  | (key, value) :: items' =>
      let lower_key := lower key in
      if String.eqb lower_key "resumetime" then
        set_properties_loop (mkListItem20 (li_self li) value (resume_total_time li)) items' vals true
      else if String.eqb lower_key "totaltime" then
        set_properties_loop (mkListItem20 (li_self li) (resume_time li) value) items' vals true
      else set_properties_loop li items' (dict_set key value vals) resume_point
  end.

(** k20 [ListItem.setProperties(values)]: the item after the loop's
    assignments (made before any host call), and the host calls. *)
Definition setProperties (li : ListItem20) (values : list (string * pyval))
    : ListItem20 * M W pyval :=
  let '(li', vals, resume_point) := set_properties_loop li values [] false in
  (li',
   _ <- (match vals with
         | [] => ret PNone
         | _ => hc (li_self li') "setProperties" [PDict vals]
         end) ;;
   _ <- (if resume_point then _set_resume_point W host li' else ret PNone) ;;
   ret PNone).

End Adapters.

(** ** [lib/kover/k19.py]: [kodi_list] and the remaining wrapper methods *)

(** [kodi_list(val)]: lists and tuples are the [Sequence]s that are not
    [str]. *)
Definition kodi_list (val : pyval) : pyval :=
  if negb (truthy val) then PList []
  else match val with
       | PList _ | PTuple _ => val
       | _ => PList [val]
       end.

(** [d.get(k, default)] *)
Definition dict_get_or (k : string) (d : list (string * pyval)) (default : pyval) : pyval :=
  match dict_get k d with Some v => v | None => default end.

(** [InfoTagWrapper.getDbId()] *)
Definition getDbId (t : InfoTagWrapper) : pyval := dict_get_or "dbid" (_self_data t) (PStr "").

(** [InfoTagWrapper.getYear()] *)
Definition getYear (t : InfoTagWrapper) : pyval := dict_get_or "year" (_self_data t) (PInt 0).

(** [InfoTagVideoWrapper.getDirectors()] *)
Definition getDirectors (t : InfoTagWrapper) : pyval :=
  kodi_list (dict_get_or "director" (_self_data t) (PStr "")).

Definition setMediaType {W} host (t : InfoTagWrapper) (mediaType : pyval) :=
  wrapper_setter W host t "mediatype" mediaType.
Definition setDuration {W} host (t : InfoTagWrapper) (duration : pyval) :=
  wrapper_setter W host t "duration" duration.
Definition setYear {W} host (t : InfoTagWrapper) (year : pyval) :=
  wrapper_setter W host t "year" year.
Definition setTrack {W} host (t : InfoTagWrapper) (track : pyval) :=
  wrapper_setter W host t "tracknumber" track.
Definition setDisc {W} host (t : InfoTagWrapper) (disc : pyval) :=
  wrapper_setter W host t "discnumber" disc.

(** [InfoTagMusicWrapper.setURL(url)] *)
Definition setURL {W} (t : InfoTagWrapper) (url : pyval) : M W pyval := throw W NotImplementedError.

(** The fields of the stream dataclasses, in declaration order. *)
Definition VideoStreamDetail_fields : list string :=
  ["width"; "height"; "aspect"; "duration"; "codec"; "stereoMode"; "language"; "hdrType"].
Definition AudioStreamDetail_fields : list string := ["channels"; "codec"; "language"].
Definition SubtitleStreamDetail_fields : list string := ["language"].

(** [dataclasses.asdict(o)] on a flat dataclass instance: every field is in
    the instance dictionary (written by [__init__] and the mixin's setters). *)
Definition asdict (fields : list string) (o : pyobj) : list (string * pyval) :=
  map (fun f => (f, dict_get_or f (inst o) PNone)) fields.

Section Wrapper19.
Context {W : Type} (host : W -> call -> outcome pyval * W).

Local Notation "x <- m ;; k" := (bind W m (fun x => k))
  (at level 61, m at next level, right associativity).
Local Abbreviation hc := (hcall W host).
Local Abbreviation ret := (ret W).

(** [InfoTagVideoWrapper.getVotesAsInt(type)] *)
Definition getVotesAsInt (t : InfoTagWrapper) (type : string) : M W pyval :=
  if is_none (_self_list_item t) then ret (PInt 0)
  else hc (_self_list_item t) "getVotes" [PStr type].

(** [InfoTagVideoWrapper.getRating(type)] *)
Definition getRating19 (t : InfoTagWrapper) (type : string) : M W pyval :=
  if is_none (_self_list_item t) then ret (PFloat 0%float)
  else hc (_self_list_item t) "getRating" [PStr type].

(** [InfoTagVideoWrapper.getResumeTime()] *)
Definition getResumeTime (t : InfoTagWrapper) : M W pyval :=
  if is_none (_self_list_item t) then ret (PInt 0)
  else hc (_self_list_item t) "getProperty" [PStr "ResumeTime"].

(** [InfoTagVideoWrapper.getResumeTimeTotal()] *)
Definition getResumeTimeTotal (t : InfoTagWrapper) : M W pyval :=
  if is_none (_self_list_item t) then ret (PInt 0)
  else hc (_self_list_item t) "getProperty" [PStr "TotalTime"].

(** [InfoTagVideoWrapper.getUniqueID(key)] *)
Definition getUniqueID19 (t : InfoTagWrapper) (key : string) : M W pyval :=
  if is_none (_self_list_item t) then ret (PStr "")
  else hc (_self_list_item t) "getUniqueID" [PStr key].

(** [InfoTagVideoWrapper.setUniqueID(uniqueID, type, isDefault)] *)
Definition setUniqueID19 (t : InfoTagWrapper) (uniqueID : pyval) (type : string)
    (isDefault : pyval) : M W pyval :=
  if is_none (_self_list_item t) then ret (PStr "")
  else hc (_self_list_item t) "setUniqueID"
         [PDict [(type, uniqueID)]; PStr (if truthy isDefault then type else "")].

(** [addVideoStream], [addAudioStream], [addSubtitleStream]:
    [self._self_list_item.addStreamInfo(kind, asdict(stream))]. *)
Definition add_stream19 (kind : string) (fields : list string) (t : InfoTagWrapper)
    (stream : pyobj) : M W pyval :=
  if negb (is_none (_self_list_item t)) then
    hc (_self_list_item t) "addStreamInfo" [PStr kind; PDict (asdict fields stream)]
  else ret PNone.

Definition addVideoStream := add_stream19 "video" VideoStreamDetail_fields.
Definition addAudioStream := add_stream19 "audio" AudioStreamDetail_fields.
Definition addSubtitleStream := add_stream19 "subtitle" SubtitleStreamDetail_fields.

(** The dictionary [setCast] builds for one [Actor]; a dataclass field is
    read from the instance dictionary. *)
Definition actor_dict (a : pyobj) : pyval :=
  PDict [("name", dict_get_or "name" (inst a) PNone);
         ("role", dict_get_or "role" (inst a) PNone);
         ("thumbnail", dict_get_or "thumbnail" (inst a) PNone);
         ("order", dict_get_or "order" (inst a) PNone)].

(** [InfoTagVideoWrapper.setCast(actors)] *)
Definition setCast19 (t : InfoTagWrapper) (actors : list pyobj) : M W pyval :=
  if is_none (_self_list_item t) then throw W (AttributeError "setCast")
  else _ <- hc (_self_list_item t) "setCast" [PList (map actor_dict actors)] ;; ret PNone.

(** [InfoTagVideoWrapper.setResumePoint(time, totalTime=0.0)] *)
Definition setResumePoint19 (t : InfoTagWrapper) (time totalTime : pyval) : M W pyval :=
  if is_none (_self_list_item t) then throw W (AttributeError "setProperty")
  else
    _ <- hc (_self_list_item t) "setProperty" [PStr "ResumeTime"; time] ;;
    if truthy totalTime then
      _ <- hc (_self_list_item t) "setProperty" [PStr "TotalTime"; totalTime] ;; ret PNone
    else ret PNone.

(** The loop of [addSeasons]: [for number, name in ...:
    self._self_list_item.addSeason(number, name)]; each element is unpacked
    before the method is looked up. *)
Fixpoint add_seasons_loop (item : pyval) (l : list pyval) : M W pyval :=
  match l with
  | [] => ret PNone
  | x :: l' =>
      p <- lift W (py_iter x) ;;
      match p with
      | [number; name] =>
          if is_none item then throw W (AttributeError "addSeason")
          else _ <- hc item "addSeason" [number; name] ;; add_seasons_loop item l'
      | _ => throw W ValueError
      end
  end.

(** [InfoTagVideoWrapper.addSeasons(namedSeasons)]: [namedSeasons or ()]. *)
Definition addSeasons (t : InfoTagWrapper) (namedSeasons : pyval) : M W pyval :=
  l <- lift W (if truthy namedSeasons then py_iter namedSeasons else Ok []) ;;
  add_seasons_loop (_self_list_item t) l.

End Wrapper19.

(** The k19 [ListItem]: the host item and its two cached tag wrappers. *)
Record ListItem19 : Type := mkListItem19 {
  li19_self : pyval;
  _self_videoInfoTag : option InfoTagWrapper;
  _self_musicInfoTag : option InfoTagWrapper
}.

(** k19 [ListItem.__init__] *)
Definition new_ListItem19 (self : pyval) : ListItem19 := mkListItem19 self None None.

(** k19 [ListItem.getVideoInfoTag()]: the wrapper is created (around the
    host's tag) on the first call only, with the item as its list item. *)
Definition getVideoInfoTag19 {W} host (li : ListItem19) : M W (ListItem19 * InfoTagWrapper) :=
  match _self_videoInfoTag li with
  | Some t => ret W (li, t)
  | None =>
      bind W (hcall W host (li19_self li) "getVideoInfoTag" []) (fun _ =>
        let t := new_InfoTagWrapper "video" (li19_self li) true in
        ret W (mkListItem19 (li19_self li) (Some t) (_self_musicInfoTag li), t))
  end.

(** [li.getVideoInfoTag().m(...)] for a method [f] that updates the wrapper
    in place: the item keeps the updated wrapper (it is the same Python
    object), also when the method then raises; the method's own outcome is
    returned beside the item. *)
Definition with_video_tag {W} host (li : ListItem19)
    (f : InfoTagWrapper -> InfoTagWrapper * M W pyval) : M W (ListItem19 * outcome pyval) :=
  bind W (getVideoInfoTag19 host li) (fun '(li1, t) =>
    let '(t', m) := f t in
    fun s => let '(r, s') := m s in
             (Ok (mkListItem19 (li19_self li1) (Some t') (_self_musicInfoTag li1), r), s')).

(** ** Decimal numerals, and a host for the examples *)

(** [str(z)] for an integer [z] (as [py_str (PInt z)]): its decimal
    numeral, with a leading [-] when negative. *)
Definition str_int (z : Z) : string := NilZero.string_of_int (Z.to_int z).

(** The characters of the numeral of a [Decimal.uint]. *)
Definition digits_of (d : Decimal.uint) : list ascii :=
  list_ascii_of_string (NilEmpty.string_of_uint d).

(** A host whose every call answers a fresh object, numbered by the world. *)
Definition fresh_host (w : N) (c : call) : outcome pyval * N := (Ok (PObj w), N.succ w).

(** ** Generic facts *)

Lemma dict_get_set {A} (k : string) (v : A) (d : list (string * A)) :
  dict_get k (dict_set k v d) = Some v.
Proof.
  induction d as [|[k' v'] d IH]; simpl.
  - rewrite String.eqb_refl. reflexivity.
  - destruct (String.eqb k k') eqn:E; simpl.
    + rewrite String.eqb_refl. reflexivity.
    + rewrite E. exact IH.
Qed.

Lemma store_get_put (n : N) (d : list (string * pyval)) (w : store) :
  store_get n (store_put n d w) = d.
Proof.
  induction w as [|[m d'] w IH]; simpl.
  - rewrite N.eqb_refl. reflexivity.
  - destruct (N.eqb n m) eqn:E; simpl.
    + rewrite N.eqb_refl. reflexivity.
    + rewrite E. exact IH.
Qed.

Ltac z_cases :=
  repeat match goal with
  | |- context [Z.eqb ?x ?y] => destruct (Z.eqb_spec x y)
  | |- context [Z.ltb ?x ?y] => destruct (Z.ltb_spec x y)
  | |- context [Z.leb ?x ?y] => destruct (Z.leb_spec x y)
  end; simpl; try lia.

(** ** C1: the version resolver *)

(** C1: for every triple [(major, minor, build)] the effective major
    [version] follows the three-way epoch rule of §4.1 (below 18.9.701 the
    raw major; below 19.90 it is 19; otherwise the raw major, plus one when
    the minor is at least 90); the build strings "18.9.700", "18.9.701",
    "19.89", "19.90" and "20.1" resolve to 18, 19, 19, 20 and 20. *)
Theorem version_epoch_rule :
  (forall major minor build,
     version (major, minor, build) = spec_effective_major major minor build) /\
  map resolve_version
      [Some "18.9.700"; Some "18.9.701"; Some "19.89"; Some "19.90"; Some "20.1"]
  = [Ok 18; Ok 19; Ok 19; Ok 20; Ok 20].
Proof.
  split.
  - intros a b c. unfold version, spec_effective_major. simpl. z_cases.
  - vm_compute. reflexivity.
Qed.

(** ** C4: the default build version *)

(** C4 (counterexample): the default substituted for an empty label is not
    the oldest supported release: "18.9.700" resolves to effective major 18,
    below the default's. *)
Lemma default_version_not_oldest :
  ~ (forall s n, resolve_version (Some s) = Ok n ->
       exists d, resolve_version (Some "") = Ok d /\ d <= n).
Proof.
  intros H. destruct (H "18.9.700" 18 eq_refl) as [d [Hd Hle]].
  vm_compute in Hd. injection Hd as <-. lia.
Qed.

(** C4 (amended): an empty or unavailable build-version label is replaced,
    without raising, by the fixed default "20": the version triple is
    (20, 0, 0) and the effective major 20 (the K20 adapter is selected). *)
Theorem default_version_is_20 :
  get_kodi_version_info None = Ok (20, 0, 0) /\
  get_kodi_version_info (Some "") = Ok (20, 0, 0) /\
  resolve_version None = Ok 20 /\
  resolve_version (Some "") = Ok 20.
Proof. vm_compute. repeat split. Qed.

(** ** C7 and C8: the coercion helpers *)

(** C7 (counterexample): "1,234.5" keeps its comma and [float()] rejects
    it: [float_or_none] raises [ValueError] instead of yielding a number. *)
Lemma float_or_none_thousands_raises :
  float_or_none (PStr "1,234.5") = Raise ValueError /\
  ~ (exists f, float_or_none (PStr "1,234.5") = Ok (PFloat f)).
Proof.
  split.
  - vm_compute. reflexivity.
  - intros [f Hf]. vm_compute in Hf. discriminate.
Qed.

(** C7 (amended): [float_or_none] maps "1,5" to 1.5; "1,234.5" is passed
    unchanged to [float()], which raises [ValueError]; "" yields the integer
    -1 (equal to -1.0); int and float inputs are returned unchanged. *)
Theorem float_or_none_cases :
  float_or_none (PStr "1,5") = Ok (PFloat 1.5%float) /\
  float_or_none (PStr "1,234.5") = Raise ValueError /\
  float_or_none (PStr "") = Ok (PInt (-1)) /\
  (forall z, float_or_none (PInt z) = Ok (PInt z)) /\
  (forall f, float_or_none (PFloat f) = Ok (PFloat f)).
Proof.
  repeat split; intros; try reflexivity; vm_compute; reflexivity.
Qed.

(** C8: [int_or_none] maps "1,234" to 1234, "12.6" to 13 ([int(12.6 + .5)]),
    "" and [None] to -1, and returns int inputs unchanged. *)
Theorem int_or_none_cases :
  int_or_none (PStr "1,234") = Ok (PInt 1234) /\
  int_or_none (PStr "12.6") = Ok (PInt 13) /\
  int_or_none (PStr "") = Ok (PInt (-1)) /\
  int_or_none PNone = Ok (PInt (-1)) /\
  (forall z, int_or_none (PInt z) = Ok (PInt z)).
Proof.
  repeat split; intros; try reflexivity; vm_compute; reflexivity.
Qed.

(** ** C5: activation happens once *)

Lemma patch_when_patched (v : Z) (ns : host_ns) :
  patched ns = true -> patch v ns = ns.
Proof.
  intros H. unfold patch, _patch19, _patch20. rewrite H.
  destruct (v <? 20); reflexivity.
Qed.

Lemma patched_after_patch (v : Z) (ns : host_ns) : patched (patch v ns) = true.
Proof.
  destruct (patched ns) eqn:E.
  - rewrite patch_when_patched; assumption.
  - unfold patch, _patch19, _patch20. rewrite E. destruct (v <? 20); reflexivity.
Qed.

Lemma patch_all_when_patched (vs : list Z) (ns : host_ns) :
  patched ns = true -> patch_all vs ns = ns.
Proof.
  revert ns. induction vs as [|v vs IH]; intros ns H; simpl.
  - reflexivity.
  - unfold patch_all in *. simpl. rewrite (patch_when_patched v ns H). apply IH, H.
Qed.

(** C5: starting unpatched, the first [patch()] sets the [_patched_by_kover]
    flag and binds [xbmcgui.ListItem] to the adapter chosen by the version;
    any later sequence of activation requests, for either adapter, leaves
    every binding unchanged (all functions are total: nothing raises). *)
Theorem patch_idempotent (v : Z) (ns : host_ns) (later : list Z) :
  xbmc__patched_by_kover ns = None ->
  xbmc__patched_by_kover (patch v ns) = Some (PBool true) /\
  xbmcgui_ListItem (patch v ns) =
    (if v <? 20 then "kover.k19.ListItem" else "kover.k20.ListItem") /\
  patch_all later (patch v ns) = patch v ns.
Proof.
  intros H.
  assert (Hp : patched ns = false) by (unfold patched; rewrite H; reflexivity).
  split; [|split].
  - unfold patch, _patch19, _patch20. rewrite Hp. destruct (v <? 20); reflexivity.
  - unfold patch, _patch19, _patch20. rewrite Hp. destruct (v <? 20); reflexivity.
  - apply patch_all_when_patched, patched_after_patch.
Qed.

Lemma patch_idempotent_witness :
  xbmc__patched_by_kover host_ns0 = None /\
  xbmc__patched_by_kover (patch 19 host_ns0) = Some (PBool true) /\
  xbmcgui_ListItem (patch 19 host_ns0) = "kover.k19.ListItem" /\
  patch_all [20; 19; 21] (patch 19 host_ns0) = patch 19 host_ns0.
Proof.
  split; [reflexivity|].
  exact (patch_idempotent 19 host_ns0 [20; 19; 21] eq_refl).
Defined.

(** ** C9: [GetSetMixin.__getattr__] *)

(** C9 (code defect): on an [Actor], the undefined names "setup" and "set"
    do not fail with [AttributeError]: "setup" yields a setter for the
    attribute "up" and "set" raises [IndexError]; the [set] branch lacks the
    uppercase test of the [get] branch, which [InfoTagWrapper.__getattr__]
    has ("setup" is an [AttributeError] there). *)
Theorem mixin_set_prefix_defect :
  obj_getattr (Actor "" "" (-1) "") "setup" = Ok (ASetter "up") /\
  obj_getattr (Actor "" "" (-1) "") "set" = Raise IndexError /\
  obj_getattr (Actor "" "" (-1) "") "getup" = Raise (AttributeError "getup") /\
  wrapper_getattr (fun _ => false) "setup" = Raise (AttributeError "setup").
Proof. vm_compute. repeat split. Qed.

(** ** C10: [getVotes] *)

(** C10: on the K20 adapter, [getVotes(key)] runs exactly as [getRating(key)]
    (same host calls, same result) for every host, item, key and state: both
    return [getVideoInfoTag().getRating(key)]. *)
Theorem getVotes_is_getRating (W : Type) (host : W -> call -> outcome pyval * W)
    (li : ListItem20) (key : string) (s : st W) :
  getVotes W host li key s = getRating W host li key s /\
  getVotes W host li key s =
    bind W (hcall W host (li_self li) "getVideoInfoTag" [])
         (fun tag => hcall W host tag "getRating" [PStr key]) s.
Proof. split; reflexivity. Qed.

Lemma set_info_items_known (W : Type) (host : W -> call -> outcome pyval * W)
    (so : pyval -> string) (tag : pyval) (key : string) (value : pyval)
    (items labels : list (string * pyval)) (ops : list op) :
  dict_get (lower key) info_label_keys = Some ops ->
  set_info_items W host so tag ((key, value) :: items) labels =
    bind W (run_ops W host so key tag ops value) (fun _ => set_info_items W host so tag items labels).
Proof. intros H. cbn [set_info_items]. rewrite H. reflexivity. Qed.

(** ** C2: [setTitle] across the two adapters *)

(** C2: on the K20 adapter, [setInfo("video", {"title": X})] calls the
    host's [getVideoInfoTag()] and then [setTitle(X)] on that tag and nothing
    else (no residual bulk call, nothing logged), so a host whose [getTitle]
    returns what [setTitle] stored yields [X]; on the K19 adapter, when the
    list item has no attribute [setTitle], the wrapper resolves [setTitle] to
    its setter for the lowered field "title", which stores [X] in the
    side-table under "title" and makes exactly one host call,
    [setInfo("video", {"title": X})], so a host whose bulk labels record that
    call yields [X] for "title". *)
Theorem adapters_title_roundtrip (W : Type) (host : W -> call -> outcome pyval * W)
    (so : pyval -> string) (self t X r : pyval) (w0 w1 w2 : W) (cs : list call)
    (err : list logline) (item : pyval) (item_has : string -> bool)
    (label : W -> string -> option pyval) :
  host w0 (mkCall self "getVideoInfoTag" [] []) = (Ok t, w1) ->
  host w1 (mkCall t "setTitle" [X] []) = (Ok r, w2) ->
  (forall w w' r', host w (mkCall t "setTitle" [X] []) = (Ok r', w') ->
     fst (host w' (mkCall t "getTitle" [] [])) = Ok X) ->
  item_has "setTitle" = false ->
  is_none item = false ->
  (forall w w' r', host w (mkCall item "setInfo" [PStr "video"; PDict [("title", X)]] []) = (Ok r', w') ->
     label w' "title" = Some X) ->
  setInfo W host so self "video" [("title", X)] (mkSt w0 cs err) =
    (Ok PNone, mkSt w2 (cs ++ [mkCall self "getVideoInfoTag" [] []; mkCall t "setTitle" [X] []]) err) /\
  fst (host w2 (mkCall t "getTitle" [] [])) = Ok X /\
  wrapper_getattr item_has "setTitle" = Ok (TagSetter "title") /\
  _self_data (fst (wrapper_setter W host (new_InfoTagWrapper "video" item true) "title" X)) = [("title", X)] /\
  (forall w w' r', host w (mkCall item "setInfo" [PStr "video"; PDict [("title", X)]] []) = (Ok r', w') ->
     snd (wrapper_setter W host (new_InfoTagWrapper "video" item true) "title" X) (mkSt w cs err) =
       (Ok PNone, mkSt w' (cs ++ [mkCall item "setInfo" [PStr "video"; PDict [("title", X)]] []]) err) /\
     label w' "title" = Some X).
Proof.
  intros Hget Hset Hlaw Hhas Hitem Hlabel.
  split; [|split; [|split; [|split]]].
  - assert (Hcap : capitalize "video" = "Video") by (vm_compute; reflexivity).
    assert (Hkey : dict_get (lower "title") info_label_keys = Some [OpSetter "setTitle"])
      by (vm_compute; reflexivity).
    unfold setInfo. rewrite Hcap. cbv zeta.
    change ("get" ++ "Video" ++ "InfoTag") with "getVideoInfoTag".
    unfold bind at 1. unfold hcall at 1. cbn [world calls stderr]. rewrite Hget. cbv beta iota.
    rewrite (set_info_items_known W host so _ _ _ _ _ _ Hkey).
    cbv [bind run_ops reraise apply_op hcall ret log]. cbn [world calls stderr]. rewrite Hset.
    cbn. rewrite <- app_assoc. reflexivity.
  - exact (Hlaw _ _ _ Hset).
  - unfold wrapper_getattr. cbn. rewrite Hhas. reflexivity.
  - reflexivity.
  - intros w w' r' H. split; [|exact (Hlabel _ _ _ H)].
    unfold wrapper_setter, new_InfoTagWrapper. rewrite Hitem. cbn.
    unfold bind, hcall. cbn. rewrite H. reflexivity.
Qed.

(** ** C3: the resume point properties *)

(** C3 (code defect): on a fresh K20 item, [setProperty("ResumeTime", 120)]
    calls [setResumePoint(None)] on the video tag: it passes the unset total
    time instead of 120 and no zero default.  Setting only [TotalTime] makes
    no host call at all, and with both set the call is
    [setResumePoint(total, total)]. *)
Theorem resume_point_calls (W : Type) (host : W -> call -> outcome pyval * W)
    (self t : pyval) (w0 w1 : W) (cs : list call) (err : list logline) :
  host w0 (mkCall self "getVideoInfoTag" [] []) = (Ok t, w1) ->
  calls (snd (setProperty W host (new_ListItem20 self) "ResumeTime" (PInt 120) (mkSt w0 cs err)))
    = (cs ++ [mkCall self "getVideoInfoTag" [] []; mkCall t "setResumePoint" [PNone] []])%list /\
  setProperty W host (new_ListItem20 self) "TotalTime" (PInt 300) (mkSt w0 cs err)
    = (Ok (mkListItem20 self PNone (PInt 300), PNone), mkSt w0 cs err) /\
  calls (snd (setProperty W host (mkListItem20 self (PInt 120) PNone) "TotalTime" (PInt 300) (mkSt w0 cs err)))
    = (cs ++ [mkCall self "getVideoInfoTag" [] []; mkCall t "setResumePoint" [PInt 300; PInt 300] []])%list.
Proof.
  intros Hget. split; [|split].
  - cbv -[app]. rewrite Hget. cbv -[app].
    destruct (host w1 _) as [o w2]. destruct o; rewrite <- app_assoc; reflexivity.
  - reflexivity.
  - cbv -[app]. rewrite Hget. cbv -[app].
    destruct (host w1 _) as [o w2]. destruct o; rewrite <- app_assoc; reflexivity.
Qed.

(** ** C6: a failing transformation chain in [setInfo] *)

Section AppendsFacts.
Context {W : Type} (host : W -> call -> outcome pyval * W) (so : pyval -> string).

Lemma appends_ret {A} (P : call -> Prop) (a : A) : appends P (ret W a).
Proof.
  intros s r s' H. injection H as _ <-. split; [reflexivity|].
  exists []. rewrite app_nil_r. split; [reflexivity | constructor].
Qed.

Lemma appends_throw {A} (P : call -> Prop) (e : exc) : appends P (throw W (A:=A) e).
Proof.
  intros s r s' H. injection H as _ <-. split; [reflexivity|].
  exists []. rewrite app_nil_r. split; [reflexivity | constructor].
Qed.

Lemma appends_lift {A} (P : call -> Prop) (o : outcome A) : appends P (lift W o).
Proof.
  intros s r s' H. injection H as _ <-. split; [reflexivity|].
  exists []. rewrite app_nil_r. split; [reflexivity | constructor].
Qed.

Lemma appends_bind {A B} (P : call -> Prop) (m : M W A) (k : A -> M W B) :
  appends P m -> (forall a, appends P (k a)) -> appends P (bind W m k).
Proof.
  intros Hm Hk s r s' H. unfold bind in H.
  destruct (m s) as [[a|e] s1] eqn:E.
  - destruct (Hm _ _ _ E) as [He1 [l1 [Hc1 Hf1]]].
    destruct (Hk a _ _ _ H) as [He2 [l2 [Hc2 Hf2]]].
    split; [congruence|]. exists (l1 ++ l2)%list.
    rewrite Hc2, Hc1, app_assoc. split; [reflexivity | apply Forall_app; auto].
  - injection H as _ <-. exact (Hm _ _ _ E).
Qed.

Lemma appends_hcall (P : call -> Prop) (r : pyval) (m : string) (a : list pyval) :
  P (mkCall r m a []) -> appends P (hcall W host r m a).
Proof.
  intros HP s o s' H. unfold hcall in H.
  destruct (host (world s) _) as [o1 w1]. injection H as _ <-. cbn.
  split; [reflexivity|]. exists [mkCall r m a []]. split; [reflexivity | repeat constructor; exact HP].
Qed.

Lemma appends_hcall_kw (P : call -> Prop) (r : pyval) (m : string) (a : list pyval)
    (kw : list (string * pyval)) :
  P (mkCall r m a kw) -> appends P (hcall_kw W host r m a kw).
Proof.
  intros HP s o s' H. unfold hcall_kw in H.
  destruct (host (world s) _) as [o1 w1]. injection H as _ <-. cbn.
  split; [reflexivity|]. exists [mkCall r m a kw]. split; [reflexivity | repeat constructor; exact HP].
Qed.

Lemma appends_mapM {A B} (P : call -> Prop) (f : A -> M W B) (l : list A) :
  (forall a, appends P (f a)) -> appends P (mapM W f l).
Proof.
  intros Hf. induction l as [|a l IH]; simpl.
  - apply appends_ret.
  - apply appends_bind; [apply Hf|]. intros b.
    apply appends_bind; [exact IH|]. intros bs. apply appends_ret.
Qed.

Create HintDb appends.
Local Hint Resolve appends_ret appends_throw appends_lift appends_mapM : appends.

Ltac appends_step :=
  match goal with
  | |- appends _ (bind _ _ _) => apply appends_bind; [|intro]
  | |- appends _ (hcall _ _ _ _ _) => apply appends_hcall; discriminate
  | |- appends _ (hcall_kw _ _ _ _ _ _) => apply appends_hcall_kw; discriminate
  | |- appends _ (mapM _ _ _) => apply appends_mapM; intro
  | |- appends _ (match ?x with _ => _ end) => destruct x
  | |- appends _ (if ?b then _ else _) => destruct b
  | |- appends _ (actor_pos _ _ _) => unfold actor_pos
  | |- appends _ (actor_kw _ _ _) => unfold actor_kw
  | _ => solve [eauto with appends]
  end.

Lemma run_helper_appends (f : helper) (tag v : pyval) :
  appends not_setInfo (run_helper W host so f tag v).
Proof. destruct f; cbn [run_helper]; repeat appends_step. Qed.

Lemma apply_op_appends (tag v : pyval) (o : op) :
  op_okb o = true -> appends not_setInfo (apply_op W host so tag o v).
Proof.
  intros Hok. destruct o as [n|f]; cbn [apply_op].
  - apply appends_hcall. unfold not_setInfo. cbn. intros Hn. subst n.
    discriminate Hok.
  - apply run_helper_appends.
Qed.

End AppendsFacts.

Lemma dict_get_In {A} (k : string) (v : A) (d : list (string * A)) :
  dict_get k d = Some v -> In (k, v) d.
Proof.
  induction d as [|[k' v'] d IH]; simpl; [discriminate|].
  destruct (String.eqb_spec k k') as [->|_].
  - intros H. injection H as <-. left. reflexivity.
  - intros H. right. exact (IH H).
Qed.

Lemma info_label_keys_okb :
  forallb (fun kv => forallb op_okb (snd kv)) info_label_keys = true.
Proof. vm_compute. reflexivity. Qed.

Lemma info_label_ops_ok (k : string) (ops : list op) :
  dict_get k info_label_keys = Some ops -> forall o, In o ops -> op_okb o = true.
Proof.
  intros H o Ho. apply dict_get_In in H.
  pose proof info_label_keys_okb as Hb. rewrite forallb_forall in Hb.
  specialize (Hb _ H). cbn in Hb. rewrite forallb_forall in Hb. exact (Hb o Ho).
Qed.

Section SetInfoFacts.
Context {W : Type} (host : W -> call -> outcome pyval * W) (so : pyval -> string).

Lemma run_ops_spec (key : string) (tag : pyval) (ops : list op) :
  (forall o, In o ops -> op_okb o = true) ->
  forall v s r s', run_ops W host so key tag ops v s = (r, s') ->
  (exists l, calls s' = (calls s ++ l)%list /\ Forall not_setInfo l) /\
  match r with
  | Ok _ => stderr s' = stderr s
  | Raise e => exists o, In o ops /\ stderr s' = (stderr s ++ [SetInfoError key o e])%list
  end.
Proof.
  induction ops as [|o ops IH]; intros Hok v s r s' H; cbn [run_ops] in H.
  - injection H as <- <-. split; [|reflexivity].
    exists []. rewrite app_nil_r. split; [reflexivity | constructor].
  - unfold bind, reraise in H.
    destruct (apply_op W host so tag o v s) as [[a|e] s1] eqn:E1.
    + destruct (apply_op_appends host so tag v o (Hok o (or_introl eq_refl)) _ _ _ E1)
        as [He1 [l1 [Hc1 Hf1]]].
      destruct (IH (fun o' Ho' => Hok o' (or_intror Ho')) _ _ _ _ H) as [[l2 [Hc2 Hf2]] Hr].
      split.
      * exists (l1 ++ l2)%list. rewrite Hc2, Hc1, app_assoc.
        split; [reflexivity | apply Forall_app; auto].
      * destruct r as [a'|e'].
        -- congruence.
        -- destruct Hr as [o' [Ho' Hs]]. exists o'. split; [right; exact Ho'|].
           rewrite Hs, He1. reflexivity.
    + destruct (apply_op_appends host so tag v o (Hok o (or_introl eq_refl)) _ _ _ E1)
        as [He1 [l1 [Hc1 Hf1]]].
      unfold log in H. injection H as <- <-. cbn. split.
      * exists l1. split; assumption.
      * exists o. split; [left; reflexivity|]. rewrite He1. reflexivity.
Qed.

Lemma set_info_items_raise (tag : pyval) (items : list (string * pyval)) :
  forall labels s e s', set_info_items W host so tag items labels s = (Raise e, s') ->
  exists pre key value post ops o labels1 s1,
    items = (pre ++ (key, value) :: post)%list /\
    set_info_items W host so tag pre labels s = (Ok labels1, s1) /\
    dict_get (lower key) info_label_keys = Some ops /\ In o ops /\
    stderr s' = (stderr s1 ++ [SetInfoError key o e])%list /\
    exists l, calls s' = (calls s1 ++ l)%list /\ Forall not_setInfo l.
Proof.
  induction items as [|[key value] items IH]; intros labels s e s' H;
    cbn [set_info_items] in H.
  - discriminate H.
  - destruct (dict_get (lower key) info_label_keys) as [ops|] eqn:Ek.
    + unfold bind in H.
      destruct (run_ops W host so key tag ops value s) as [[a|e1] s1] eqn:E1.
      * destruct (IH _ _ _ _ H)
          as [pre [k [v [post [ops' [o [labels1 [s2 [Hi [Hp Hrest]]]]]]]]]].
        exists ((key, value) :: pre), k, v, post, ops', o, labels1, s2.
        split; [rewrite Hi; reflexivity|]. split; [|exact Hrest].
        cbn [set_info_items]. rewrite Ek. unfold bind. rewrite E1. exact Hp.
      * injection H as -> ->.
        destruct (run_ops_spec key tag ops (info_label_ops_ok _ _ Ek) _ _ _ _ E1)
          as [Hc [o [Ho Hs]]].
        exists [], key, value, items, ops, o, labels, s.
        repeat split; auto.
    + destruct (IH _ _ _ _ H)
        as [pre [k [v [post [ops' [o [labels1 [s2 [Hi [Hp Hrest]]]]]]]]]].
      exists ((key, value) :: pre), k, v, post, ops', o, labels1, s2.
      split; [rewrite Hi; reflexivity|]. split; [|exact Hrest].
      cbn [set_info_items]. rewrite Ek. exact Hp.
Qed.

End SetInfoFacts.

(** C6 (amended): when the host returns the info tag and the loop over the
    labels raises [e] in the transformation chain of some key, [setInfo]
    raises that same [e] and ends in the loop's final state: the residual
    bulk [setInfo] host call is never made, so the labels absent from the
    table that were collected are not forwarded.  The failing key is one of
    the dictionary's keys, known to the table; exactly one line naming it,
    one of its operations and [e] is printed; every host call made for the
    keys before it stays made (no rollback), and the calls made afterwards
    are none of them a bulk [setInfo]. *)
Theorem setInfo_chain_failure (W : Type) (host : W -> call -> outcome pyval * W)
    (so : pyval -> string) (self : pyval) (type : string)
    (items : list (string * pyval)) (s s0 s1 : st W) (tag : pyval) (e : exc) :
  hcall W host self ("get" ++ capitalize type ++ "InfoTag") [] s = (Ok tag, s0) ->
  set_info_items W host so tag items [] s0 = (Raise e, s1) ->
  setInfo W host so self type items s = (Raise e, s1) /\
  exists pre key value post ops o labels1 s2,
    items = (pre ++ (key, value) :: post)%list /\
    set_info_items W host so tag pre [] s0 = (Ok labels1, s2) /\
    dict_get (lower key) info_label_keys = Some ops /\ In o ops /\
    stderr s1 = (stderr s2 ++ [SetInfoError key o e])%list /\
    exists l, calls s1 = (calls s2 ++ l)%list /\ Forall (fun c => meth c <> "setInfo") l.
Proof.
  intros Htag Hloop. split.
  - unfold setInfo. cbv zeta. unfold bind at 1. rewrite Htag.
    unfold bind. rewrite Hloop. reflexivity.
  - exact (set_info_items_raise host so tag items [] s0 e s1 Hloop).
Qed.

(** C6 (counterexample): with the unknown key "foo" before the key "year"
    whose [int_or_none] raises, the exception is logged and re-raised, and
    no bulk [setInfo] host call is made: "foo" is never passed on. *)
Lemma setInfo_failure_drops_unknown :
  let '(r, s') := setInfo store store_host no_str (PObj 0) "video"
                    [("foo", PStr "bar"); ("year", PStr "abc")] (mkSt [] [] []) in
  r = Raise ValueError /\
  stderr s' = [SetInfoError "year" (OpFun int_or_none_h) ValueError] /\
  Forall (fun c => meth c <> "setInfo") (calls s').
Proof.
  vm_compute. split; [reflexivity|]. split; [reflexivity|].
  repeat constructor; discriminate.
Qed.

(** ** Witnesses on the example host *)

Lemma store_host_setter_law (n : N) (X : pyval) :
  forall w w' r', store_host w (mkCall (PObj n) "setTitle" [X] []) = (Ok r', w') ->
  fst (store_host w' (mkCall (PObj n) "getTitle" [] [])) = Ok X.
Proof.
  intros w w' r' H. unfold store_host in H. cbn in H. injection H as _ <-.
  unfold store_host. cbn [recv meth args].
  replace (String.eqb "getTitle" "getVideoInfoTag") with false by reflexivity.
  replace (String.eqb "getTitle" "setInfo") with false by reflexivity.
  replace (startswith "getTitle" "set") with false by reflexivity.
  replace (startswith "getTitle" "get") with true by reflexivity.
  replace (lower (slice_from 3 "getTitle")) with "title" by reflexivity.
  rewrite store_get_put, dict_get_set. reflexivity.
Qed.

Lemma store_host_setInfo_law (n : N) (X : pyval) :
  forall w w' r',
  store_host w (mkCall (PObj n) "setInfo" [PStr "video"; PDict [("title", X)]] []) = (Ok r', w') ->
  store_label w' n "title" = Some X.
Proof.
  intros w w' r' H. unfold store_host in H. cbn in H. injection H as _ <-.
  unfold store_label. rewrite store_get_put. unfold merge. cbn. apply dict_get_set.
Qed.

Lemma adapters_title_roundtrip_witness :
  setInfo store store_host no_str (PObj 0) "video" [("title", PStr "X")] (mkSt [] [] []) =
    (Ok PNone, mkSt (store_put 1 [("title", PStr "X")] [])
                    ([] ++ [mkCall (PObj 0) "getVideoInfoTag" [] []; mkCall (PObj 1) "setTitle" [PStr "X"] []])
                    []) /\
  fst (store_host (store_put 1 [("title", PStr "X")] []) (mkCall (PObj 1) "getTitle" [] [])) = Ok (PStr "X") /\
  wrapper_getattr (fun _ => false) "setTitle" = Ok (TagSetter "title") /\
  _self_data (fst (wrapper_setter store store_host (new_InfoTagWrapper "video" (PObj 0) true) "title" (PStr "X")))
    = [("title", PStr "X")] /\
  (forall w w' r',
     store_host w (mkCall (PObj 0) "setInfo" [PStr "video"; PDict [("title", PStr "X")]] []) = (Ok r', w') ->
     snd (wrapper_setter store store_host (new_InfoTagWrapper "video" (PObj 0) true) "title" (PStr "X"))
         (mkSt w [] []) =
       (Ok PNone, mkSt w' ([] ++ [mkCall (PObj 0) "setInfo" [PStr "video"; PDict [("title", PStr "X")]] []]) []) /\
     store_label w' 0 "title" = Some (PStr "X")).
Proof.
  apply (adapters_title_roundtrip store store_host no_str (PObj 0) (PObj 1) (PStr "X") PNone
           [] [] (store_put 1 [("title", PStr "X")] []) [] [] (PObj 0) (fun _ => false)
           (fun w f => store_label w 0 f)).
  - vm_compute. reflexivity.
  - vm_compute. reflexivity.
  - apply store_host_setter_law.
  - reflexivity.
  - reflexivity.
  - apply store_host_setInfo_law.
Defined.

Lemma resume_point_calls_witness :
  calls (snd (setProperty store store_host (new_ListItem20 (PObj 0)) "ResumeTime" (PInt 120) (mkSt [] [] [])))
    = ([] ++ [mkCall (PObj 0) "getVideoInfoTag" [] []; mkCall (PObj 1) "setResumePoint" [PNone] []])%list /\
  setProperty store store_host (new_ListItem20 (PObj 0)) "TotalTime" (PInt 300) (mkSt [] [] [])
    = (Ok (mkListItem20 (PObj 0) PNone (PInt 300), PNone), mkSt [] [] []) /\
  calls (snd (setProperty store store_host (mkListItem20 (PObj 0) (PInt 120) PNone) "TotalTime" (PInt 300)
                (mkSt [] [] [])))
    = ([] ++ [mkCall (PObj 0) "getVideoInfoTag" [] []; mkCall (PObj 1) "setResumePoint" [PInt 300; PInt 300] []])%list.
Proof.
  apply (resume_point_calls store store_host (PObj 0) (PObj 1) [] [] [] []).
  vm_compute. reflexivity.
Defined.

Lemma setInfo_chain_failure_witness :
  let s0 := mkSt (W:=store) [] [mkCall (PObj 0) "getVideoInfoTag" [] []] [] in
  let s1 := mkSt (W:=store) [] [mkCall (PObj 0) "getVideoInfoTag" [] []]
                 [SetInfoError "year" (OpFun int_or_none_h) ValueError] in
  let items := [("foo", PStr "bar"); ("year", PStr "abc")] in
  setInfo store store_host no_str (PObj 0) "video" items (mkSt [] [] []) = (Raise ValueError, s1) /\
  exists pre key value post ops o labels1 s2,
    items = (pre ++ (key, value) :: post)%list /\
    set_info_items store store_host no_str (PObj 1) pre [] s0 = (Ok labels1, s2) /\
    dict_get (lower key) info_label_keys = Some ops /\ In o ops /\
    stderr s1 = (stderr s2 ++ [SetInfoError key o ValueError])%list /\
    exists l, calls s1 = (calls s2 ++ l)%list /\ Forall (fun c => meth c <> "setInfo") l.
Proof.
  intros s0 s1 items.
  apply (setInfo_chain_failure store store_host no_str (PObj 0) "video" items
           (mkSt [] [] []) s0 s1 (PObj 1) ValueError).
  - vm_compute. reflexivity.
  - vm_compute. reflexivity.
Defined.

(** ** Further properties of the shim *)

Lemma strip_left_id (l : list ascii) :
  Forall (fun c => is_space c = false) l -> strip_left l = l.
Proof. destruct l as [|c l]; [reflexivity|]. intros H. inversion H; subst. cbn. rewrite H2. reflexivity. Qed.

Lemma strip_id (l : list ascii) :
  Forall (fun c => is_space c = false) l -> strip l = l.
Proof.
  intros H. unfold strip. rewrite (strip_left_id l H).
  rewrite strip_left_id; [apply rev_involutive|]. apply Forall_rev. exact H.
Qed.

Lemma digitpart_aux_uint_acc (d : Decimal.uint) : forall (acc : positive) (n : nat),
  digitpart_aux (Zpos acc) n (digits_of d) = (Zpos (Pos.of_uint_acc d acc), (n + Decimal.nb_digits d)%nat, []).
Proof.
  induction d; intros acc n;
  cbn [digits_of NilEmpty.string_of_uint list_ascii_of_string digitpart_aux Pos.of_uint_acc Decimal.nb_digits];
  try (rewrite Nat.add_0_r; reflexivity);
  match goal with |- context [is_digit ?c] => replace (is_digit c) with true by reflexivity end;
  match goal with |- context [digit_val ?c] =>
    let v := eval vm_compute in (digit_val c) in change (digit_val c) with v end;
  match goal with
  | |- digitpart_aux ?a _ _ = (Zpos (Pos.of_uint_acc _ ?q), _, _) =>
      replace a with (Zpos q) by lia
  end;
  unfold digits_of in IHd; rewrite IHd; f_equal; f_equal; lia.
Qed.

Lemma digitpart_aux_uint (d : Decimal.uint) : forall (n : nat),
  digitpart_aux 0 n (digits_of d) = (Z.of_uint d, (n + Decimal.nb_digits d)%nat, []).
Proof.
  induction d; intros n;
  cbn [digits_of NilEmpty.string_of_uint list_ascii_of_string digitpart_aux Decimal.nb_digits];
  try (rewrite Nat.add_0_r; reflexivity);
  match goal with |- context [is_digit ?c] => replace (is_digit c) with true by reflexivity end;
  match goal with |- context [digit_val ?c] =>
    let v := eval vm_compute in (digit_val c) in change (digit_val c) with v end;
  cbn [Z.mul Z.add];
  change (list_ascii_of_string (NilEmpty.string_of_uint d)) with (digits_of d).
  1: { rewrite IHd. f_equal. f_equal. lia. }
  all: rewrite digitpart_aux_uint_acc; f_equal; f_equal; lia.
Qed.

Lemma digits_of_digits (d : Decimal.uint) : Forall (fun c => is_digit c = true) (digits_of d).
Proof. induction d; constructor; try reflexivity; exact IHd. Qed.

Lemma digit_not_space (c : ascii) : is_digit c = true -> is_space c = false.
Proof.
  unfold is_digit, is_space. intros H. apply andb_prop in H as [H1 H2].
  apply Nat.leb_le in H1, H2.
  destruct ((9 <=? nat_of_ascii c)%nat && (nat_of_ascii c <=? 13)%nat) eqn:E1;
  [apply andb_prop in E1 as [_ E1]; apply Nat.leb_le in E1; lia|].
  destruct ((28 <=? nat_of_ascii c)%nat && (nat_of_ascii c <=? 32)%nat) eqn:E2;
  [apply andb_prop in E2 as [_ E2]; apply Nat.leb_le in E2; lia|reflexivity].
Qed.

Lemma take_sign_digits (l : list ascii) :
  Forall (fun c => is_digit c = true) l -> take_sign l = (false, l).
Proof.
  intros H. destruct l as [|c l]; [reflexivity|]. inversion H; subst. cbn.
  destruct (Ascii.eqb_spec c "-"%char) as [->|_]; [discriminate|].
  destruct (Ascii.eqb_spec c "+"%char) as [->|_]; [discriminate|reflexivity].
Qed.

Lemma nilzero_uint (d : Decimal.uint) : d <> Decimal.Nil ->
  NilZero.string_of_uint d = NilEmpty.string_of_uint d.
Proof. destruct d; [contradiction|reflexivity..]. Qed.

Lemma nb_digits_pos (d : Decimal.uint) : d <> Decimal.Nil -> exists k, Decimal.nb_digits d = S k.
Proof. destruct d; [contradiction|eexists; reflexivity..]. Qed.

(** [int(str(z)) == z] *)
Lemma int_of_str_int (z : Z) : py_int_of_string (str_int z) = Ok z.
Proof.
  destruct z as [|p|p]; [reflexivity| |].
  - rewrite <- (DecimalZ.of_to (Zpos p)) at 2. unfold str_int. cbn [Z.to_int NilZero.string_of_int].
    pose proof (DecimalPos.Unsigned.to_uint_nonnil p) as Hn.
    rewrite (nilzero_uint _ Hn). unfold py_int_of_string.
    change (list_ascii_of_string (NilEmpty.string_of_uint (Pos.to_uint p))) with (digits_of (Pos.to_uint p)).
    pose proof (digits_of_digits (Pos.to_uint p)) as Hd.
    rewrite strip_id by (eapply Forall_impl; [exact digit_not_space|exact Hd]).
    rewrite (take_sign_digits _ Hd). unfold digitpart. rewrite digitpart_aux_uint.
    destruct (nb_digits_pos _ Hn) as [k ->]. reflexivity.
  - rewrite <- (DecimalZ.of_to (Zneg p)) at 2. unfold str_int. cbn [Z.to_int NilZero.string_of_int].
    pose proof (DecimalPos.Unsigned.to_uint_nonnil p) as Hn.
    rewrite (nilzero_uint _ Hn). unfold py_int_of_string.
    change (list_ascii_of_string (String "-" (NilEmpty.string_of_uint (Pos.to_uint p))))
      with ("-"%char :: digits_of (Pos.to_uint p)).
    pose proof (digits_of_digits (Pos.to_uint p)) as Hd.
    rewrite strip_id by (constructor; [reflexivity|]; eapply Forall_impl; [exact digit_not_space|exact Hd]).
    cbn [take_sign]. rewrite Ascii.eqb_refl. unfold digitpart. rewrite digitpart_aux_uint.
    destruct (nb_digits_pos _ Hn) as [k ->]. reflexivity.
Qed.

Lemma count_app (c : ascii) (s t : string) : count c (s ++ t) = (count c s + count c t)%nat.
Proof. induction s as [|d s IH]; cbn; [reflexivity|]. rewrite IH. lia. Qed.

Lemma partition_head_app (c : ascii) (s t : string) :
  count c s = 0%nat -> partition_head c (s ++ String c t) = s.
Proof.
  induction s as [|d s IH]; cbn; intros H.
  - rewrite Ascii.eqb_refl. reflexivity.
  - destruct (Ascii.eqb c d); [discriminate|]. rewrite IH by exact H. reflexivity.
Qed.

Lemma partition_head_none (c : ascii) (s : string) :
  count c s = 0%nat -> partition_head c s = s.
Proof.
  induction s as [|d s IH]; cbn; intros H; [reflexivity|].
  destruct (Ascii.eqb c d); [discriminate|]. rewrite IH by exact H. reflexivity.
Qed.

Lemma split_max_app (c : ascii) (n : nat) (s t : string) :
  count c s = 0%nat -> split_max c (S n) (s ++ String c t) = s :: split_max c n t.
Proof.
  induction s as [|d s IH]; cbn; intros H.
  - rewrite Ascii.eqb_refl. reflexivity.
  - destruct (Ascii.eqb c d); [discriminate|]. rewrite IH by exact H. reflexivity.
Qed.

Lemma split_max_none (c : ascii) (n : nat) (s : string) :
  count c s = 0%nat -> split_max c n s = [s].
Proof.
  induction s as [|d s IH]; cbn; intros H; [reflexivity|].
  destruct (Ascii.eqb c d); [discriminate|]. rewrite IH by exact H. reflexivity.
Qed.

Lemma count_digits (c : ascii) (s : string) :
  is_digit c = false -> Forall (fun d => is_digit d = true) (list_ascii_of_string s) -> count c s = 0%nat.
Proof.
  intros Hc. induction s as [|d s IH]; cbn; intros H; [reflexivity|].
  inversion H; subst. destruct (Ascii.eqb_spec c d) as [->|_]; [congruence|]. apply IH; assumption.
Qed.

Lemma str_int_digits (z : Z) : 0 <= z -> Forall (fun d => is_digit d = true) (list_ascii_of_string (str_int z)).
Proof.
  destruct z as [|p|p]; intros Hz; [repeat constructor| |lia].
  unfold str_int. cbn [Z.to_int NilZero.string_of_int].
  rewrite (nilzero_uint _ (DecimalPos.Unsigned.to_uint_nonnil p)). apply digits_of_digits.
Qed.

Lemma count_str_int (c : ascii) (z : Z) : is_digit c = false -> 0 <= z -> count c (str_int z) = 0%nat.
Proof. intros Hc Hz. apply count_digits; [exact Hc | apply str_int_digits, Hz]. Qed.

Lemma sappend_assoc (s t u : string) : (s ++ t) ++ u = s ++ (t ++ u).
Proof. induction s as [|d s IH]; cbn; [reflexivity|]. rewrite IH. reflexivity. Qed.

Lemma sappend_nil (s : string) : s ++ "" = s.
Proof. induction s as [|d s IH]; cbn; [reflexivity|]. rewrite IH. reflexivity. Qed.

Lemma eqb_app_dot (s t : string) : String.eqb (s ++ String "." t) "" = false.
Proof. destruct s; reflexivity. Qed.

Lemma head_sfx (sfx : string) (c : Z) :
  0 <= c -> (sfx = "" \/ exists r, sfx = String "-" r) ->
  partition_head "-" (str_int c ++ sfx) = str_int c.
Proof.
  intros Hc [->|[r ->]].
  - rewrite sappend_nil. apply partition_head_none, count_str_int; [reflexivity|exact Hc].
  - apply partition_head_app, count_str_int; [reflexivity|exact Hc].
Qed.

Lemma head_tail (p tail : string) :
  count " " p = 0%nat -> (tail = "" \/ exists r, tail = String " " r) ->
  partition_head " " (p ++ tail) = p.
Proof.
  intros Hp [->|[r ->]].
  - rewrite sappend_nil. apply partition_head_none, Hp.
  - apply partition_head_app, Hp.
Qed.

(** X1: [get_kodi_version_info] reads a build label "a.b" or "a.b.c" (non-negative numbers), optionally followed by a "-suffix" without dots or spaces and by anything after a space, as the triple (a, b, 0) or (a, b, c). *)
Theorem version_label_parse (a b c : Z) (sfx tail : string) :
  0 <= a -> 0 <= b -> 0 <= c ->
  (sfx = "" \/ exists r, sfx = String "-" r) ->
  count "." sfx = 0%nat -> count " " sfx = 0%nat ->
  (tail = "" \/ exists r, tail = String " " r) ->
  get_kodi_version_info (Some (str_int a ++ "." ++ str_int b ++ sfx ++ tail)) = Ok (a, b, 0) /\
  get_kodi_version_info (Some (str_int a ++ "." ++ str_int b ++ "." ++ str_int c ++ sfx ++ tail))
    = Ok (a, b, c).
Proof.
  intros Ha Hb Hc Hsfx Hdot Hsp Htail.
  assert (Hsp' : forall z, 0 <= z -> count " " (str_int z) = 0%nat)
    by (intros; apply count_str_int; [reflexivity|assumption]).
  assert (Hdot' : forall z, 0 <= z -> count "." (str_int z) = 0%nat)
    by (intros; apply count_str_int; [reflexivity|assumption]).
  assert (Hdash' : forall z, 0 <= z -> count "-" (str_int z) = 0%nat)
    by (intros; apply count_str_int; [reflexivity|assumption]).
  split; unfold get_kodi_version_info; cbn [String.append]; rewrite eqb_app_dot.
  - replace (str_int a ++ String "." (str_int b ++ sfx ++ tail))
      with ((str_int a ++ String "." (str_int b ++ sfx)) ++ tail)
      by (repeat (first [rewrite sappend_assoc | progress cbn [String.append]]); reflexivity).
    rewrite head_tail by (try assumption; cbn [count]; rewrite !count_app; cbn [count Ascii.eqb];
                          rewrite !count_app, !Hsp', Hsp by assumption; reflexivity).
    rewrite split_max_app by (apply Hdot'; exact Ha).
    rewrite split_max_none by (rewrite count_app, Hdot', Hdot by assumption; reflexivity).
    cbn [firstn map map_outcome]. rewrite partition_head_none by (apply Hdash'; exact Ha).
    rewrite head_sfx by assumption. rewrite !int_of_str_int. reflexivity.
  - replace (str_int a ++ String "." (str_int b ++ String "." (str_int c ++ sfx ++ tail)))
      with ((str_int a ++ String "." (str_int b ++ String "." (str_int c ++ sfx))) ++ tail)
      by (repeat (first [rewrite sappend_assoc | progress cbn [String.append]]); reflexivity).
    rewrite head_tail by (try assumption; rewrite !count_app; cbn [count Ascii.eqb];
                          rewrite !count_app; cbn [count Ascii.eqb];
                          rewrite !count_app, !Hsp', Hsp by assumption; reflexivity).
    rewrite split_max_app by (apply Hdot'; exact Ha).
    rewrite split_max_app by (apply Hdot'; exact Hb).
    rewrite split_max_none by (rewrite count_app, Hdot', Hdot by assumption; reflexivity).
    cbn [firstn map map_outcome]. rewrite !partition_head_none by (apply Hdash'; assumption).
    rewrite head_sfx by assumption. rewrite !int_of_str_int. reflexivity.
Qed.

Lemma count_str_int_any (c : ascii) (z : Z) :
  is_digit c = false -> c <> "-"%char -> count c (str_int z) = 0%nat.
Proof.
  intros Hc Hm. destruct z as [|p|p].
  - apply count_str_int; [exact Hc|lia].
  - apply count_str_int; [exact Hc|lia].
  - unfold str_int. cbn [Z.to_int NilZero.string_of_int count].
    destruct (Ascii.eqb_spec c "-"%char) as [E|_]; [contradiction|].
    rewrite (nilzero_uint _ (DecimalPos.Unsigned.to_uint_nonnil p)).
    apply count_digits; [exact Hc | apply digits_of_digits].
Qed.

Lemma replace_none (c : ascii) (r s : string) : count c s = 0%nat -> replace c r s = s.
Proof.
  induction s as [|d s IH]; cbn; intros H; [reflexivity|].
  destruct (Ascii.eqb c d); [discriminate|]. rewrite IH by exact H. reflexivity.
Qed.

Lemma str_int_nonempty (z : Z) : str_int z <> "".
Proof. intros H. pose proof (int_of_str_int z) as E. rewrite H in E. discriminate E. Qed.

(** X3: [int_or_none] reads back the decimal string of every integer: [int_or_none(str(z)) == z]. *)
Theorem int_or_none_str_roundtrip (z : Z) : int_or_none (PStr (str_int z)) = Ok (PInt z).
Proof.
  unfold int_or_none.
  rewrite replace_none by (apply count_str_int_any; [reflexivity|discriminate]).
  rewrite count_str_int_any by (reflexivity || discriminate). cbn [Nat.ltb Nat.leb].
  cbn [truthy]. destruct (String.eqb_spec (str_int z) "") as [E|_];
    [exfalso; exact (str_int_nonempty z E)|].
  cbn [negb py_int obind]. rewrite int_of_str_int. reflexivity.
Qed.

Lemma count_le_length (c : ascii) (s : string) : (count c s <= String.length s)%nat.
Proof. induction s as [|d s IH]; cbn; [lia|]. destruct (Ascii.eqb c d); lia. Qed.

Lemma split_max_length (c : ascii) (s : string) : forall n,
  (count c s <= n)%nat -> List.length (split_max c n s) = S (count c s).
Proof.
  induction s as [|d s IH]; intros n H; cbn in *; [reflexivity|].
  destruct (Ascii.eqb c d).
  - destruct n as [|n]; [lia|]. cbn. rewrite IH by lia. reflexivity.
  - specialize (IH n ltac:(lia)). destruct (split_max c n s); cbn in *; [discriminate|]. exact IH.
Qed.

Lemma split_all_length (c : ascii) (s : string) : List.length (split_all c s) = S (count c s).
Proof. apply split_max_length, count_le_length. Qed.

Lemma slength_app (s t : string) : String.length (s ++ t) = (String.length s + String.length t)%nat.
Proof. induction s as [|d s IH]; cbn; [reflexivity|]. rewrite IH. reflexivity. Qed.

Lemma split_all_pair (c : ascii) (s t : string) :
  count c s = 0%nat -> count c t = 0%nat -> split_all c (s ++ String c t) = [s; t].
Proof.
  intros Hs Ht. unfold split_all. rewrite slength_app. cbn [String.length].
  rewrite Nat.add_succ_r. rewrite split_max_app by exact Hs. rewrite split_max_none by exact Ht.
  reflexivity.
Qed.

(** X6: [set_exif_resolution] raises [ValueError] without calling the host when the string does not have exactly one comma; on "w,h" made of two integer numerals it makes the single call [tag.setResolution(w, h)]. *)
Theorem set_exif_resolution_split (W : Type) (host : W -> call -> outcome pyval * W)
    (so : pyval -> string) (tag : pyval) (s : st W) :
  (forall res, count ","%char res <> 1%nat ->
     run_helper W host so set_exif_resolution tag (PStr res) s = (Raise ValueError, s)) /\
  (forall x y,
     run_helper W host so set_exif_resolution tag (PStr (str_int x ++ "," ++ str_int y)) s =
     let c := mkCall tag "setResolution" [PInt x; PInt y] [] in
     let '(o, w') := host (world s) c in
     (obind o (fun _ => Ok PNone), mkSt w' (calls s ++ [c]) (stderr s))).
Proof.
  split.
  - intros res Hc. cbn [run_helper]. pose proof (split_all_length ","%char res) as L.
    destruct (split_all ","%char res) as [|a [|b [|d l]]]; cbn in L; try reflexivity. lia.
  - intros x y. cbn [run_helper String.append].
    rewrite split_all_pair by (apply count_str_int_any; [reflexivity|discriminate]).
    unfold bind, lift, hcall, ret. rewrite !int_of_str_int.
    destruct (host (world s) _) as [[r|e] w']; reflexivity.
Qed.

Ltac outcome_cases H :=
  repeat match type of H with
  | Ok _ = Ok _ => injection H as <-
  | Raise _ = Ok _ => discriminate H
  | context[if ?b then _ else _] => destruct b eqn:?
  | context[obind ?o _] => destruct o; cbn [obind] in H
  end.

(** X4: a successful [int_or_none] returns an integer, or the boolean it was given. *)
Theorem int_or_none_result (v r : pyval) :
  int_or_none v = Ok r -> (exists z, r = PInt z) \/ (exists b, v = PBool b /\ r = v).
Proof.
  intros H. unfold int_or_none in H.
  destruct v; cbn zeta in H; outcome_cases H; eauto.
Qed.

Lemma replace_empty (c d : ascii) (r s : string) : replace c (String d r) s = "" -> s = "".
Proof. destruct s as [|e s]; cbn; [auto|]. destruct (Ascii.eqb c e); discriminate. Qed.

(** X5: a successful [float_or_none] returns a float, the int or bool it was given, or -1, and -1 (as an int) only for a falsy argument. *)
Theorem float_or_none_result (v r : pyval) :
  float_or_none v = Ok r ->
  (exists f, r = PFloat f) \/ (r = v /\ exists z, v = PInt z) \/
  (r = v /\ exists b, v = PBool b) \/ (r = PInt (-1) /\ truthy v = false).
Proof.
  intros H. unfold float_or_none in H.
  destruct v; cbn zeta in H; outcome_cases H; eauto 7.
  all: right; right; right; split; [reflexivity|]; cbn [truthy] in *.
  all: try assumption.
  all: repeat match goal with E : negb _ = false |- _ => apply negb_false_iff in E end.
  all: repeat match goal with E : String.eqb _ _ = true |- _ => apply String.eqb_eq in E end.
  all: try (apply replace_empty in Heqb0; subst; reflexivity).
Qed.


Lemma mapM_calls {W A} (f : A -> M W pyval) (g : A -> call) (l : list A) :
  (forall a s, In a l -> exists r w', f a s = (Ok r, mkSt w' (calls s ++ [g a]) (stderr s))) ->
  forall s, exists rs w', mapM W f l s = (Ok rs, mkSt w' (calls s ++ map g l) (stderr s)) /\
                         List.length rs = List.length l.
Proof.
  induction l as [|a l IH]; intros Hf s.
  - exists [], (world s). cbn. rewrite app_nil_r. destruct s; auto.
  - destruct (Hf a s (or_introl eq_refl)) as (r & w1 & E).
    destruct (IH (fun a' s' H => Hf a' s' (or_intror H)) (mkSt w1 (calls s ++ [g a]) (stderr s)))
      as (rs & w2 & E2 & L).
    exists (r :: rs), w2. cbn [mapM]. unfold bind. rewrite E, E2. cbn.
    rewrite <- app_assoc. split; [reflexivity|]. cbn. rewrite L. reflexivity.
Qed.

(** X8: [set_cast] does nothing on a falsy value; on a non-empty list or tuple whose first element is not a dict it behaves exactly as [set_cast_and_role]; [set_cast_and_role] on an empty list still calls [tag.setCast([])]. *)
Theorem set_cast_helpers (W : Type) (host : W -> call -> outcome pyval * W)
    (so : pyval -> string) (tag : pyval) (s : st W) :
  (forall v, truthy v = false -> run_helper W host so set_cast tag v s = (Ok PNone, s)) /\
  (forall a l, (forall kv, a <> PDict kv) ->
     run_helper W host so set_cast tag (PList (a :: l)) s =
     run_helper W host so set_cast_and_role tag (PList (a :: l)) s /\
     run_helper W host so set_cast tag (PTuple (a :: l)) s =
     run_helper W host so set_cast_and_role tag (PTuple (a :: l)) s) /\
  run_helper W host so set_cast_and_role tag (PList []) s =
    (let c := mkCall tag "setCast" [PList []] [] in
     let '(o, w') := host (world s) c in
     (obind o (fun _ => Ok PNone), mkSt w' (calls s ++ [c]) (stderr s))).
Proof.
  split; [|split].
  - intros v T. cbn [run_helper]. rewrite T. reflexivity.
  - intros a l Ha. cbn [run_helper truthy List.length Nat.eqb negb py_first py_iter].
    destruct a; try (exfalso; eapply Ha; reflexivity); split; reflexivity.
  - cbv [run_helper py_iter bind lift ret hcall mapM].
    destruct (host (world s) _) as [[r|e] w']; reflexivity.
Qed.

(** X9: [set_cast] on a non-empty list of dicts calls [xbmc.Actor( **d)] for each dict in order, then [tag.setCast] once with the actors, when the host builds every actor. *)
Theorem set_cast_dicts (W : Type) (host : W -> call -> outcome pyval * W)
    (so : pyval -> string) (tag : pyval) (kvs : list (list (string * pyval))) (w : W)
    (cs : list call) (err : list logline)
    (Hactor : forall w kv, exists r w', host w (mkCall xbmc "Actor" [] kv) = (Ok r, w'))
    (Hne : kvs <> []) :
  exists actors w1,
    List.length actors = List.length kvs /\
    run_helper W host so set_cast tag (PList (map PDict kvs)) (mkSt w cs err) =
    (let c := mkCall tag "setCast" [PList actors] [] in
     let '(o, w2) := host w1 c in
     (obind o (fun _ => Ok PNone),
      mkSt w2 (cs ++ map (fun kv => mkCall xbmc "Actor" [] kv) kvs ++ [c]) err)).
Proof.
  destruct kvs as [|kv0 kvs']; [contradiction|].
  destruct (mapM_calls (actor_kw W host) (fun v => match v with PDict kv => mkCall xbmc "Actor" [] kv
                                                    | _ => mkCall xbmc "" [] [] end)
              (map PDict (kv0 :: kvs'))) with (s := mkSt w cs err) as (rs & w1 & E & L).
  { intros a s' Hin. apply in_map_iff in Hin. destruct Hin as (kv & <- & _).
    destruct (Hactor (world s') kv) as (r & w' & Eh). exists r, w'.
    cbn [actor_kw]. unfold hcall_kw. rewrite Eh. reflexivity. }
  exists rs, w1. split; [rewrite L, length_map; reflexivity|].
  cbn [run_helper truthy List.length Nat.eqb negb py_first py_iter map].
  cbn [map] in E. unfold bind at 1 2 3, lift. cbn beta iota.
  rewrite E. rewrite map_map in *. cbn [calls world stderr].
  unfold bind, hcall, ret. cbn [world calls stderr].
  destruct (host w1 _) as [[r|e] w2]; rewrite <- app_assoc; reflexivity.
Qed.

Lemma dict_set_new {A} (k : string) (v : A) (d : list (string * A)) :
  ~ In k (map fst d) -> dict_set k v d = (d ++ [(k, v)])%list.
Proof.
  induction d as [|[k' v'] d IH]; cbn; intros H; [reflexivity|].
  destruct (String.eqb_spec k k') as [->|_]; [tauto|]. rewrite IH by tauto. reflexivity.
Qed.

Lemma set_info_items_unknown (W : Type) (host : W -> call -> outcome pyval * W)
    (so : pyval -> string) (tag : pyval) (items : list (string * pyval)) :
  Forall (fun kv => dict_get (lower (fst kv)) info_label_keys = None) items ->
  forall labels s, NoDup (map fst (labels ++ items)%list) ->
  set_info_items W host so tag items labels s = (Ok (labels ++ items)%list, s).
Proof.
  induction items as [|[k v] items IH]; intros Hu labels s Hd.
  - cbn. rewrite app_nil_r. reflexivity.
  - inversion Hu as [|? ? Hk Hu']; subst. change (dict_get (lower k) info_label_keys = None) in Hk. cbn [set_info_items]. rewrite Hk.
    rewrite map_app in Hd. cbn [map fst] in Hd.
    rewrite dict_set_new.
    + rewrite IH by (try exact Hu'; rewrite <- app_assoc; rewrite map_app; exact Hd).
      rewrite <- app_assoc. reflexivity.
    + intros Hin. apply NoDup_remove_2 in Hd. apply Hd. apply in_or_app. left. exact Hin.
Qed.

(** X10: k20 [ListItem.setInfo] with only keys outside [info_label_keys], distinct, fetches the tag once and forwards the whole dictionary, in order, to the host's [setInfo] with the capitalized type; an empty dictionary makes only the tag call. *)
Theorem setInfo_unknown_forwarded (W : Type) (host : W -> call -> outcome pyval * W)
    (so : pyval -> string) (self tag : pyval) (type : string) (items : list (string * pyval))
    (w w1 : W) (cs : list call) (err : list logline)
    (Hu : Forall (fun kv => dict_get (lower (fst kv)) info_label_keys = None) items)
    (Hd : NoDup (map fst items))
    (Hget : host w (mkCall self ("get" ++ capitalize type ++ "InfoTag") [] []) = (Ok tag, w1)) :
  setInfo W host so self type items (mkSt w cs err) =
  (let g := mkCall self ("get" ++ capitalize type ++ "InfoTag") [] [] in
   match items with
   | [] => (Ok PNone, mkSt w1 (cs ++ [g]) err)
   | _ => let c := mkCall self "setInfo" [PStr (capitalize type); PDict items] [] in
          let '(o, w2) := host w1 c in
          (obind o (fun _ => Ok PNone), mkSt w2 (cs ++ [g; c]) err)
   end).
Proof.
  unfold setInfo. unfold bind at 1, hcall at 1. cbn [world calls stderr]. rewrite Hget.
  unfold bind at 1. rewrite (set_info_items_unknown W host so tag items Hu [] _ Hd).
  cbn [app]. destruct items as [|kv items']; [reflexivity|].
  unfold bind, hcall, ret. cbn [world calls stderr].
  destruct (host w1 _) as [[r|e] w2]; rewrite <- app_assoc; reflexivity.
Qed.

(** X11: k20 [ListItem.addAvailableArtwork] passes [season=-1] for a falsy season and the integer for a numeral; a non-empty season that [int()] rejects raises before any host call. *)
Theorem addAvailableArtwork_season (W : Type) (host : W -> call -> outcome pyval * W)
    (li : ListItem20) (url art_type preview referrer cache post isgz tag : pyval)
    (w w1 : W) (cs : list call) (err : list logline)
    (Hget : host w (mkCall (li_self li) "getVideoInfoTag" [] []) = (Ok tag, w1)) :
  let art season := mkCall tag "addAvailableArtwork" [url]
        [("art_type", art_type); ("preview", preview); ("referrer", referrer);
         ("cache", cache); ("post", post); ("isgz", isgz); ("season", season)] in
  let g := mkCall (li_self li) "getVideoInfoTag" [] [] in
  (forall season, truthy season = false ->
     addAvailableArtwork host li url art_type preview referrer cache post isgz season (mkSt w cs err) =
     (let '(o, w2) := host w1 (art (PInt (-1))) in (o, mkSt w2 (cs ++ [g; art (PInt (-1))]) err))) /\
  (forall n,
     addAvailableArtwork host li url art_type preview referrer cache post isgz (PStr (str_int n))
       (mkSt w cs err) =
     (let '(o, w2) := host w1 (art (PInt n)) in (o, mkSt w2 (cs ++ [g; art (PInt n)]) err))) /\
  (forall str e, str <> "" -> py_int_of_string str = Raise e ->
     addAvailableArtwork host li url art_type preview referrer cache post isgz (PStr str)
       (mkSt w cs err) = (Raise e, mkSt w cs err)).
Proof.
  intros art g. split; [|split].
  - intros season T. unfold addAvailableArtwork. rewrite T.
    unfold bind, ret, hcall, hcall_kw. cbn [world calls stderr]. rewrite Hget.
    cbn [world calls stderr]. destruct (host w1 _) as [o w2]. rewrite <- app_assoc. reflexivity.
  - intros n. unfold addAvailableArtwork.
    replace (truthy (PStr (str_int n))) with true
      by (cbn; destruct (String.eqb_spec (str_int n) "") as [E|_];
          [exfalso; exact (str_int_nonempty n E)|reflexivity]).
    unfold bind, ret, lift, hcall, hcall_kw. cbn [py_int]. rewrite int_of_str_int.
    cbn [world calls stderr]. rewrite Hget.
    cbn [world calls stderr]. destruct (host w1 _) as [o w2]. rewrite <- app_assoc. reflexivity.
  - intros str e Hne Hp. unfold addAvailableArtwork.
    replace (truthy (PStr str)) with true
      by (cbn; destruct (String.eqb_spec str "") as [E|_]; [contradiction|reflexivity]).
    unfold bind, lift. cbn [py_int]. rewrite Hp. reflexivity.
Qed.

(** X12: k20 [ListItem.addStreamInfo] fetches the video tag first: for a type other than video, audio and subtitle it then raises [ValueError]; for each of the three it builds the matching stream detail from the dict and adds it with the matching [add...Stream] call. *)
Theorem addStreamInfo_dispatch (W : Type) (host : W -> call -> outcome pyval * W)
    (li : ListItem20) (tag : pyval) (w w1 : W) (cs : list call) (err : list logline)
    (Hget : host w (mkCall (li_self li) "getVideoInfoTag" [] []) = (Ok tag, w1)) :
  let g := mkCall (li_self li) "getVideoInfoTag" [] [] in
  (forall type values, type <> "video" -> type <> "audio" -> type <> "subtitle" ->
     addStreamInfo host li type values (mkSt w cs err) = (Raise ValueError, mkSt w1 (cs ++ [g]) err)) /\
  (forall type cls meth kv d w2,
     In (type, cls, meth) [("video", "VideoStreamDetail", "addVideoStream");
                           ("audio", "AudioStreamDetail", "addAudioStream");
                           ("subtitle", "SubtitleStreamDetail", "addSubtitleStream")] ->
     host w1 (mkCall xbmc cls [] kv) = (Ok d, w2) ->
     addStreamInfo host li type (PDict kv) (mkSt w cs err) =
     (let c := mkCall tag meth [d] [] in
      let '(o, w3) := host w2 c in
      (obind o (fun _ => Ok PNone), mkSt w3 (cs ++ [g; mkCall xbmc cls [] kv; c]) err))).
Proof.
  intros g. split.
  - intros type values H1 H2 H3. unfold addStreamInfo. unfold bind at 1, hcall at 1.
    cbn [world calls stderr]. rewrite Hget.
    apply String.eqb_neq in H1, H2, H3. rewrite H1, H2, H3. reflexivity.
  - intros type cls meth kv d w2 Hin Hd. unfold addStreamInfo. unfold bind at 1, hcall at 1.
    cbn [world calls stderr]. rewrite Hget.
    cbn [In] in Hin. destruct Hin as [E|[E|[E|[]]]]; injection E as <- <- <-; cbn [String.eqb Ascii.eqb Bool.eqb andb];
    unfold stream_detail, bind, hcall, hcall_kw, ret; cbn [world calls stderr]; rewrite Hd;
    cbn [world calls stderr]; destruct (host w2 _) as [[r|e] w3];
    rewrite <- !app_assoc; reflexivity.
Qed.



(** X14: k20 [ListItem.setProperties({'ResumeTime': a, 'TotalTime': b})] records both values on the item and makes a single resume call, [setResumePoint(b, b)], after one [getVideoInfoTag] call and with no [setProperties] call. *)
Theorem setProperties_resume_batch (W : Type) (host : W -> call -> outcome pyval * W)
    (li : ListItem20) (a b tag : pyval) (w w1 : W) (cs : list call) (err : list logline)
    (Ha : a <> PNone) (Hb : b <> PNone)
    (Hget : host w (mkCall (li_self li) "getVideoInfoTag" [] []) = (Ok tag, w1)) :
  fst (setProperties host li [("ResumeTime", a); ("TotalTime", b)]) = mkListItem20 (li_self li) a b /\
  snd (setProperties host li [("ResumeTime", a); ("TotalTime", b)]) (mkSt w cs err) =
    (let c := mkCall tag "setResumePoint" [b; b] [] in
     let '(o, w2) := host w1 c in
     (obind o (fun _ => Ok PNone),
      mkSt w2 (cs ++ [mkCall (li_self li) "getVideoInfoTag" [] []; c]) err)).
Proof.
  split; [reflexivity|].
  cbv [setProperties set_properties_loop fst snd].
  replace (String.eqb (lower "ResumeTime") "resumetime") with true by reflexivity.
  replace (String.eqb (lower "TotalTime") "resumetime") with false by reflexivity.
  replace (String.eqb (lower "TotalTime") "totaltime") with true by reflexivity.
  cbn [li_self resume_time resume_total_time].
  unfold _set_resume_point. cbn [resume_time resume_total_time li_self].
  destruct a; [contradiction| | | | | | | |]; destruct b; try contradiction;
  cbn [is_none negb];
  unfold bind, hcall, ret; cbn [world calls stderr]; rewrite Hget; cbn [world calls stderr];
  destruct (host w1 _) as [[r|e] w2]; rewrite <- app_assoc; reflexivity.
Qed.

(** X2: the effective major [version] is monotone: a version triple that is lexicographically smaller never gets a larger effective major. *)
Theorem version_monotone (a b c a' b' c' : Z) :
  tuple_lt [a; b; c] [a'; b'; c'] = true -> version (a, b, c) <= version (a', b', c').
Proof. unfold version. cbn [tuple_lt]. z_cases; intros H; try discriminate; lia. Qed.

(** X15: k20 [ListItem.setUniqueIDs] has no [self]: [li.setUniqueIDs(d)] passes the item itself as the ids and [d] as the default rating to the tag's [setUniqueIDs], and a call with two arguments raises [TypeError] before any host call. *)
Theorem setUniqueIDs_binding (W : Type) (host : W -> call -> outcome pyval * W)
    (li : ListItem20) (tag : pyval) (w w1 : W) (cs : list call) (err : list logline)
    (Hget : host w (mkCall (li_self li) "getVideoInfoTag" [] []) = (Ok tag, w1)) :
  let g := mkCall (li_self li) "getVideoInfoTag" [] [] in
  (forall d, setUniqueIDs_call host li [d] (mkSt w cs err) =
     (let c := mkCall tag "setUniqueIDs" [li_self li; if truthy d then d else PStr ""] [] in
      let '(o, w2) := host w1 c in (o, mkSt w2 (cs ++ [g; c]) err))) /\
  (forall a b l s, setUniqueIDs_call host li (a :: b :: l) s = (Raise TypeError, s)).
Proof.
  intros g. split.
  - intros d. unfold setUniqueIDs_call. unfold bind, hcall. cbn [world calls stderr].
    rewrite Hget. cbn [world calls stderr]. destruct (host w1 _) as [o w2].
    rewrite <- app_assoc. reflexivity.
  - reflexivity.
Qed.



(** X17: a k19 [InfoTagWrapper] built without a list item is never synchronised: its setters make no host call, its getters return their defaults without a call, [addVideoStream] does nothing, and [setCast] and [setResumePoint] raise [AttributeError]. *)
Theorem wrapper19_detached (W : Type) (host : W -> call -> outcome pyval * W)
    (ty : string) (sync : bool) (y k : pyval) (key : string) (stream : pyobj)
    (actors : list pyobj) (time total : pyval) (s : st W) :
  let t := new_InfoTagWrapper ty PNone sync in
  _self_sync t = false /\
  getYear t = PInt 0 /\ getDbId t = PStr "" /\ getDirectors t = PList [] /\
  snd (setYear host t y) s = (Ok PNone, s) /\
  snd (wrapper_setter W host t key k) s = (Ok PNone, s) /\
  getVotesAsInt host t key s = (Ok (PInt 0), s) /\
  getRating19 host t key s = (Ok (PFloat 0%float), s) /\
  getResumeTime host t s = (Ok (PInt 0), s) /\
  getResumeTimeTotal host t s = (Ok (PInt 0), s) /\
  getUniqueID19 host t key s = (Ok (PStr ""), s) /\
  setUniqueID19 host t k key y s = (Ok (PStr ""), s) /\
  addVideoStream host t stream s = (Ok PNone, s) /\
  setCast19 host t actors s = (Raise (AttributeError "setCast"), s) /\
  setResumePoint19 host t time total s = (Raise (AttributeError "setProperty"), s).
Proof.
  intros t. unfold t, new_InfoTagWrapper. cbn [is_none negb]. rewrite andb_false_r.
  repeat split; reflexivity.
Qed.

(** X18: k19 [setResumePoint(time, totalTime)] sets the item's ResumeTime property and, only when [totalTime] is truthy, its TotalTime property afterwards. *)
Theorem setResumePoint19_calls (W : Type) (host : W -> call -> outcome pyval * W)
    (t : InfoTagWrapper) (time total : pyval) (w : W) (cs : list call) (err : list logline)
    (Hitem : _self_list_item t <> PNone) :
  let c1 := mkCall (_self_list_item t) "setProperty" [PStr "ResumeTime"; time] [] in
  let c2 := mkCall (_self_list_item t) "setProperty" [PStr "TotalTime"; total] [] in
  (truthy total = false ->
     setResumePoint19 host t time total (mkSt w cs err) =
     (let '(o, w1) := host w c1 in (obind o (fun _ => Ok PNone), mkSt w1 (cs ++ [c1]) err))) /\
  (forall r w1, truthy total = true -> host w c1 = (Ok r, w1) ->
     setResumePoint19 host t time total (mkSt w cs err) =
     (let '(o, w2) := host w1 c2 in (obind o (fun _ => Ok PNone), mkSt w2 (cs ++ [c1; c2]) err))).
Proof.
  intros c1 c2. unfold setResumePoint19.
  destruct (is_none (_self_list_item t)) eqn:N;
    [destruct (_self_list_item t); try discriminate; contradiction|].
  split.
  - intros T. unfold bind, hcall, ret. cbn [world calls stderr]. fold c1.
    destruct (host w c1) as [[r|e] w1]; rewrite ?T; reflexivity.
  - intros r w1 T H1. unfold bind, hcall, ret. cbn [world calls stderr]. fold c1. rewrite H1.
    rewrite T. cbn [world calls stderr]. fold c2.
    destruct (host w1 c2) as [[r2|e] w2]; rewrite <- app_assoc; reflexivity.
Qed.

(** X19: k19 [setCast] makes one host call, [setCast] on the list item with one dict per actor, keyed name, role, thumbnail and order. *)
Theorem setCast19_actors (W : Type) (host : W -> call -> outcome pyval * W)
    (t : InfoTagWrapper) (l : list (string * string * Z * string)) (w : W) (cs : list call)
    (err : list logline) (Hitem : _self_list_item t <> PNone) :
  let dicts := map (fun '(n, r, o, th) =>
                 PDict [("name", PStr n); ("role", PStr r); ("thumbnail", PStr th); ("order", PInt o)]) l in
  let c := mkCall (_self_list_item t) "setCast" [PList dicts] [] in
  setCast19 host t (map (fun '(n, r, o, th) => Actor n r o th) l) (mkSt w cs err) =
  (let '(o, w') := host w c in (obind o (fun _ => Ok PNone), mkSt w' (cs ++ [c]) err)).
Proof.
  intros dicts c. unfold setCast19.
  destruct (is_none (_self_list_item t)) eqn:N;
    [destruct (_self_list_item t); try discriminate; contradiction|].
  rewrite map_map.
  replace (map _ l) with dicts
    by (apply map_ext; intros [[[n r] o] th]; reflexivity).
  unfold bind, hcall, ret. cbn [world calls stderr]. fold c.
  destruct (host w c) as [[r|e] w']; reflexivity.
Qed.

(** X20: an [Actor] answers [setRole] and [getRole] through [GetSetMixin]; the role set with [setRole] is the one [getRole] reads and the one k19 [setCast] passes on. *)
Theorem actor_setRole_getRole (n r th : string) (o : Z) (v : pyval) :
  let a := Actor n r o th in
  obj_getattr a "setRole" = Ok (ASetter "role") /\
  obj_getattr a "getRole" = Ok (AGetter "role") /\
  call_getter a "role" = Ok (AVal (PStr r)) /\
  call_getter (call_setter a "role" v) "role" = Ok (AVal v) /\
  actor_dict (call_setter a "role" v) =
    PDict [("name", PStr n); ("role", v); ("thumbnail", PStr th); ("order", PInt o)].
Proof.
  intros a. split; [vm_compute; reflexivity|]. split; [vm_compute; reflexivity|].
  split; [reflexivity|]. split; [|reflexivity].
  unfold call_getter, obj_getattr, call_setter. cbn [inst]. rewrite dict_get_set. reflexivity.
Qed.

Lemma bind_hcall_ok {W A} (host : W -> call -> outcome pyval * W) (rc : pyval) (m : string)
    (a : list pyval) (k : pyval -> M W A) (s : st W) (r : pyval) (w' : W) :
  host (world s) (mkCall rc m a []) = (Ok r, w') ->
  bind W (hcall W host rc m a) k s = k r (mkSt w' (calls s ++ [mkCall rc m a []]) (stderr s)).
Proof. intros H. unfold bind, hcall. rewrite H. reflexivity. Qed.

Lemma add_seasons_loop_calls (W : Type) (host : W -> call -> outcome pyval * W) (item : pyval)
    (Hitem : item <> PNone)
    (Hok : forall w n nm, exists r w', host w (mkCall item "addSeason" [n; nm] []) = (Ok r, w'))
    (ps : list (pyval * pyval)) :
  forall w cs err, exists w',
    add_seasons_loop host item (map (fun p => PTuple [fst p; snd p]) ps) (mkSt w cs err) =
    (Ok PNone, mkSt w' (cs ++ map (fun p => mkCall item "addSeason" [fst p; snd p] []) ps) err).
Proof.
  induction ps as [|[n nm] ps IH]; intros w cs err.
  - exists w. cbn. rewrite app_nil_r. reflexivity.
  - destruct (Hok w n nm) as (r & w1 & E).
    destruct (IH w1 (cs ++ [mkCall item "addSeason" [n; nm] []])%list err) as (w2 & E2).
    exists w2. cbn [add_seasons_loop map fst snd]. unfold bind at 1, lift. cbn [py_iter].
    destruct (is_none item) eqn:N; [destruct item; try discriminate; contradiction|].
    rewrite (bind_hcall_ok host item "addSeason" [n; nm] _ (mkSt w cs err) r w1 E). cbn [world calls stderr].
    rewrite E2. rewrite <- app_assoc. reflexivity.
Qed.

(** X21: k19 [addSeasons] does nothing on a falsy argument, and on a list of pairs calls the list item's [addSeason(number, name)] once per pair, in order. *)
Theorem addSeasons_calls (W : Type) (host : W -> call -> outcome pyval * W)
    (t : InfoTagWrapper) (Hitem : _self_list_item t <> PNone)
    (Hok : forall w n nm, exists r w',
       host w (mkCall (_self_list_item t) "addSeason" [n; nm] []) = (Ok r, w')) :
  (forall seasons s, truthy seasons = false -> addSeasons host t seasons s = (Ok PNone, s)) /\
  (forall ps w cs err, exists w',
     addSeasons host t (PList (map (fun p => PTuple [fst p; snd p]) ps)) (mkSt w cs err) =
     (Ok PNone,
      mkSt w' (cs ++ map (fun p => mkCall (_self_list_item t) "addSeason" [fst p; snd p] []) ps) err)).
Proof.
  split.
  - intros seasons s T. unfold addSeasons. rewrite T. reflexivity.
  - intros ps w cs err. unfold addSeasons.
    destruct (truthy (PList (map (fun p => PTuple [fst p; snd p]) ps))) eqn:T.
    + cbn [py_iter]. unfold bind at 1, lift.
      exact (add_seasons_loop_calls W host _ Hitem Hok ps w cs err).
    + destruct ps as [|p ps]; [|discriminate].
      exists w. cbn. rewrite app_nil_r. reflexivity.
Qed.

(** X22: k19 [ListItem.getVideoInfoTag] calls the host once and caches the wrapper: [li.getVideoInfoTag().setYear(y)] calls the host's [getVideoInfoTag] and [setInfo('video', {'year': y})], and later [getVideoInfoTag] calls make no host call and return a wrapper whose [getYear] is [y]. *)
Theorem k19_video_tag_cached (W : Type) (host : W -> call -> outcome pyval * W)
    (self r y : pyval) (w w1 : W) (cs : list call) (err : list logline)
    (Hself : self <> PNone)
    (Hget : host w (mkCall self "getVideoInfoTag" [] []) = (Ok r, w1)) :
  let g := mkCall self "getVideoInfoTag" [] [] in
  let c := mkCall self "setInfo" [PStr "video"; PDict [("year", y)]] [] in
  let '(o, w2) := host w1 c in
  exists li',
    with_video_tag host (new_ListItem19 self) (fun t => setYear host t y) (mkSt w cs err) =
    (Ok (li', obind o (fun _ => Ok PNone)), mkSt w2 (cs ++ [g; c]) err) /\
    (forall s, exists t, getVideoInfoTag19 host li' s = (Ok (li', t), s) /\ getYear t = y).
Proof.
  intros g c. destruct (host w1 c) as [o w2] eqn:Hc.
  eexists. split.
  - unfold with_video_tag, getVideoInfoTag19. cbn [_self_videoInfoTag new_ListItem19 li19_self].
    unfold bind at 1. rewrite (bind_hcall_ok host self "getVideoInfoTag" [] _ (mkSt w cs err) r w1 Hget).
    unfold ret. cbn [world calls stderr].
    unfold setYear, wrapper_setter, new_InfoTagWrapper. cbn [_self_sync _self_list_item _type].
    destruct self; try contradiction; cbn [is_none negb andb];
    unfold bind, hcall, ret; cbn [world calls stderr]; fold c; rewrite Hc;
    destruct o; rewrite <- app_assoc; reflexivity.
  - intros s. eexists. split; [reflexivity|]. unfold getYear, dict_get_or. cbn [_self_data].
    rewrite dict_get_set. reflexivity.
Qed.

(** X23: the k20 tag getters return the first element of the host's list, and on an empty list the music [getGenre], [getDirector] and [getWritingCredits] return '' while the video [getGenre] returns [None]. *)
Theorem k20_first_or_default (W : Type) (host : W -> call -> outcome pyval * W)
    (so : pyval -> string) (inner : pyval) (s : st W) (l : list pyval) (w' : W) :
  (host (world s) (mkCall inner "getGenres" [] []) = (Ok (PList l), w') ->
     fst (music_getGenre host inner s) = Ok (match l with [] => PStr "" | x :: _ => x end) /\
     fst (video_getGenre host inner s) = Ok (match l with [] => PNone | x :: _ => x end)) /\
  (host (world s) (mkCall inner "getDirectors" [] []) = (Ok (PList l), w') ->
     fst (video_getDirector host inner s) = Ok (match l with [] => PStr "" | x :: _ => x end)) /\
  (host (world s) (mkCall inner "getWriters" [] []) = (Ok (PList l), w') ->
     fst (video_getWritingCredits host inner s) = Ok (match l with [] => PStr "" | x :: _ => x end)).
Proof.
  split; [|split]; intros H;
    unfold music_getGenre, video_getGenre, video_getDirector, video_getWritingCredits;
    try split; rewrite (bind_hcall_ok host _ _ _ _ s _ _ H);
    destruct l; reflexivity.
Qed.

Lemma version_label_parse_witness :
  get_kodi_version_info (Some "19.4-RC1 Git:20220101") = Ok (19, 4, 0) /\
  get_kodi_version_info (Some "19.4.2-RC1 Git:20220101") = Ok (19, 4, 2).
Proof.
  exact (version_label_parse 19 4 2 "-RC1" " Git:20220101" ltac:(lia) ltac:(lia) ltac:(lia)
           (or_intror (ex_intro _ "RC1" eq_refl)) eq_refl eq_refl
           (or_intror (ex_intro _ "Git:20220101" eq_refl))).
Defined.

Lemma version_monotone_witness :
  tuple_lt [19; 95; 0] [20; 0; 0] = true /\ version (19, 95, 0) <= version (20, 0, 0).
Proof. split; [reflexivity|]. apply version_monotone. reflexivity. Defined.

Lemma int_or_none_result_witness :
  int_or_none (PStr "12.6") = Ok (PInt 13) /\
  ((exists z, PInt 13 = PInt z) \/ (exists b, PStr "12.6" = PBool b /\ PInt 13 = PStr "12.6")).
Proof.
  split; [vm_compute; reflexivity|]. apply int_or_none_result. vm_compute. reflexivity.
Defined.

Lemma float_or_none_result_witness :
  float_or_none (PStr "") = Ok (PInt (-1)) /\
  ((exists f, PInt (-1) = PFloat f) \/ (PInt (-1) = PStr "" /\ exists z, PStr "" = PInt z) \/
   (PInt (-1) = PStr "" /\ exists b, PStr "" = PBool b) \/
   (PInt (-1) = PInt (-1) /\ truthy (PStr "") = false)).
Proof.
  split; [vm_compute; reflexivity|]. apply float_or_none_result. vm_compute. reflexivity.
Defined.

Lemma set_exif_resolution_split_witness :
  count ","%char "1920x1080" <> 1%nat /\
  run_helper N fresh_host no_str set_exif_resolution (PObj 1) (PStr "1920x1080") (mkSt 0%N [] []) =
    (Raise ValueError, mkSt 0%N [] []) /\
  run_helper N fresh_host no_str set_exif_resolution (PObj 1) (PStr "1920,1080") (mkSt 0%N [] []) =
    (Ok PNone, mkSt 1%N [mkCall (PObj 1) "setResolution" [PInt 1920; PInt 1080] []] []).
Proof.
  split; [discriminate|]. split.
  - apply (proj1 (set_exif_resolution_split N fresh_host no_str (PObj 1) (mkSt 0%N [] []))).
    discriminate.
  - exact (proj2 (set_exif_resolution_split N fresh_host no_str (PObj 1) (mkSt 0%N [] [])) 1920 1080).
Defined.


Lemma set_cast_helpers_witness :
  run_helper N fresh_host no_str set_cast (PObj 1) (PList []) (mkSt 0%N [] []) = (Ok PNone, mkSt 0%N [] []) /\
  run_helper N fresh_host no_str set_cast (PObj 1) (PList [PTuple [PStr "A"; PStr "B"]]) (mkSt 0%N [] []) =
  run_helper N fresh_host no_str set_cast_and_role (PObj 1) (PList [PTuple [PStr "A"; PStr "B"]]) (mkSt 0%N [] []).
Proof.
  destruct (set_cast_helpers N fresh_host no_str (PObj 1) (mkSt 0%N [] [])) as (H1 & H2 & _).
  split; [apply H1; reflexivity|].
  apply (H2 (PTuple [PStr "A"; PStr "B"]) []). discriminate.
Defined.

Lemma set_cast_dicts_witness :
  exists actors w1,
    List.length actors = 1%nat /\
    run_helper N fresh_host no_str set_cast (PObj 1) (PList [PDict [("name", PStr "A")]]) (mkSt 0%N [] []) =
    (let c := mkCall (PObj 1) "setCast" [PList actors] [] in
     let '(o, w2) := fresh_host w1 c in
     (obind o (fun _ => Ok PNone),
      mkSt w2 ([] ++ [mkCall xbmc "Actor" [] [("name", PStr "A")]] ++ [c]) [])).
Proof.
  exact (set_cast_dicts N fresh_host no_str (PObj 1) [[("name", PStr "A")]] 0%N [] []
           (fun w kv => ex_intro _ (PObj w) (ex_intro _ (N.succ w) eq_refl)) ltac:(discriminate)).
Defined.

Lemma setInfo_unknown_forwarded_witness :
  setInfo N fresh_host no_str (PObj 7) "video" [("foo", PStr "x"); ("Bar", PInt 2)] (mkSt 0%N [] []) =
  (Ok PNone, mkSt 2%N [mkCall (PObj 7) "getVideoInfoTag" [] [];
                      mkCall (PObj 7) "setInfo" [PStr "Video"; PDict [("foo", PStr "x"); ("Bar", PInt 2)]] []] []).
Proof.
  exact (setInfo_unknown_forwarded N fresh_host no_str (PObj 7) (PObj 0) "video"
           [("foo", PStr "x"); ("Bar", PInt 2)] 0%N 1%N [] []
           ltac:(repeat constructor) ltac:(repeat constructor; cbn; intuition discriminate) eq_refl).
Defined.

Lemma addAvailableArtwork_season_witness :
  addAvailableArtwork fresh_host (new_ListItem20 (PObj 7)) (PStr "u") (PStr "poster")
    (PStr "") (PStr "") (PStr "") (PBool false) (PBool false) (PStr "2") (mkSt 0%N [] []) =
  (Ok (PObj 1), mkSt 2%N [mkCall (PObj 7) "getVideoInfoTag" [] [];
     mkCall (PObj 0) "addAvailableArtwork" [PStr "u"]
       [("art_type", PStr "poster"); ("preview", PStr ""); ("referrer", PStr "");
        ("cache", PStr ""); ("post", PBool false); ("isgz", PBool false); ("season", PInt 2)]] []).
Proof.
  exact (proj1 (proj2 (addAvailableArtwork_season N fresh_host (new_ListItem20 (PObj 7)) (PStr "u")
           (PStr "poster") (PStr "") (PStr "") (PStr "") (PBool false) (PBool false) (PObj 0)
           0%N 1%N [] [] eq_refl)) 2).
Defined.

Lemma addStreamInfo_dispatch_witness :
  addStreamInfo fresh_host (new_ListItem20 (PObj 7)) "other" (PDict []) (mkSt 0%N [] []) =
  (Raise ValueError, mkSt 1%N [mkCall (PObj 7) "getVideoInfoTag" [] []] []) /\
  addStreamInfo fresh_host (new_ListItem20 (PObj 7)) "audio" (PDict [("codec", PStr "aac")]) (mkSt 0%N [] []) =
  (Ok PNone, mkSt 3%N [mkCall (PObj 7) "getVideoInfoTag" [] [];
                      mkCall xbmc "AudioStreamDetail" [] [("codec", PStr "aac")];
                      mkCall (PObj 0) "addAudioStream" [PObj 1] []] []).
Proof.
  destruct (addStreamInfo_dispatch N fresh_host (new_ListItem20 (PObj 7)) (PObj 0) 0%N 1%N [] [] eq_refl)
    as [H1 H2].
  split.
  - apply H1; discriminate.
  - exact (H2 "audio" "AudioStreamDetail" "addAudioStream" [("codec", PStr "aac")] (PObj 1) 2%N
             ltac:(cbn; tauto) eq_refl).
Defined.


Lemma setProperties_resume_batch_witness :
  snd (setProperties fresh_host (new_ListItem20 (PObj 7)) [("ResumeTime", PInt 120); ("TotalTime", PInt 300)])
      (mkSt 0%N [] []) =
  (Ok PNone, mkSt 2%N [mkCall (PObj 7) "getVideoInfoTag" [] [];
                      mkCall (PObj 0) "setResumePoint" [PInt 300; PInt 300] []] []).
Proof.
  exact (proj2 (setProperties_resume_batch N fresh_host (new_ListItem20 (PObj 7)) (PInt 120) (PInt 300)
           (PObj 0) 0%N 1%N [] [] ltac:(discriminate) ltac:(discriminate) eq_refl)).
Defined.

Lemma setUniqueIDs_binding_witness :
  setUniqueIDs_call fresh_host (new_ListItem20 (PObj 7)) [PDict [("imdb", PStr "tt1")]] (mkSt 0%N [] []) =
  (Ok (PObj 1), mkSt 2%N [mkCall (PObj 7) "getVideoInfoTag" [] [];
                         mkCall (PObj 0) "setUniqueIDs" [PObj 7; PDict [("imdb", PStr "tt1")]] []] []) /\
  setUniqueIDs_call fresh_host (new_ListItem20 (PObj 7)) [PDict [("imdb", PStr "tt1")]; PStr "imdb"]
    (mkSt 0%N [] []) = (Raise TypeError, mkSt 0%N [] []).
Proof.
  destruct (setUniqueIDs_binding N fresh_host (new_ListItem20 (PObj 7)) (PObj 0) 0%N 1%N [] [] eq_refl)
    as [H1 H2].
  split; [exact (H1 (PDict [("imdb", PStr "tt1")]))|apply H2].
Defined.


Lemma setResumePoint19_calls_witness :
  setResumePoint19 fresh_host (new_InfoTagWrapper "video" (PObj 7) true) (PInt 60) (PInt 0) (mkSt 0%N [] []) =
  (Ok PNone, mkSt 1%N [mkCall (PObj 7) "setProperty" [PStr "ResumeTime"; PInt 60] []] []) /\
  setResumePoint19 fresh_host (new_InfoTagWrapper "video" (PObj 7) true) (PInt 60) (PInt 90) (mkSt 0%N [] []) =
  (Ok PNone, mkSt 2%N [mkCall (PObj 7) "setProperty" [PStr "ResumeTime"; PInt 60] [];
                      mkCall (PObj 7) "setProperty" [PStr "TotalTime"; PInt 90] []] []).
Proof.
  split.
  - exact (proj1 (setResumePoint19_calls N fresh_host (new_InfoTagWrapper "video" (PObj 7) true)
             (PInt 60) (PInt 0) 0%N [] [] ltac:(discriminate)) eq_refl).
  - exact (proj2 (setResumePoint19_calls N fresh_host (new_InfoTagWrapper "video" (PObj 7) true)
             (PInt 60) (PInt 90) 0%N [] [] ltac:(discriminate)) (PObj 0) 1%N eq_refl eq_refl).
Defined.

Lemma setCast19_actors_witness :
  setCast19 fresh_host (new_InfoTagWrapper "video" (PObj 7) true) [Actor "A" "B" 1 "t.jpg"] (mkSt 0%N [] []) =
  (Ok PNone, mkSt 1%N [mkCall (PObj 7) "setCast"
     [PList [PDict [("name", PStr "A"); ("role", PStr "B"); ("thumbnail", PStr "t.jpg"); ("order", PInt 1)]]] []] []).
Proof.
  exact (setCast19_actors N fresh_host (new_InfoTagWrapper "video" (PObj 7) true) [("A", "B", 1, "t.jpg")]
           0%N [] [] ltac:(discriminate)).
Defined.

Lemma addSeasons_calls_witness :
  exists w',
    addSeasons fresh_host (new_InfoTagWrapper "video" (PObj 7) true)
      (PList [PTuple [PInt 1; PStr "One"]; PTuple [PInt 2; PStr "Two"]]) (mkSt 0%N [] []) =
    (Ok PNone, mkSt w' [mkCall (PObj 7) "addSeason" [PInt 1; PStr "One"] [];
                        mkCall (PObj 7) "addSeason" [PInt 2; PStr "Two"] []] []).
Proof.
  exact (proj2 (addSeasons_calls N fresh_host (new_InfoTagWrapper "video" (PObj 7) true) ltac:(discriminate)
           (fun w n nm => ex_intro _ (PObj w) (ex_intro _ (N.succ w) eq_refl)))
           [(PInt 1, PStr "One"); (PInt 2, PStr "Two")] 0%N [] []).
Defined.

Lemma k19_video_tag_cached_witness :
  exists li',
    with_video_tag fresh_host (new_ListItem19 (PObj 7)) (fun t => setYear fresh_host t (PInt 1999))
      (mkSt 0%N [] []) =
    (Ok (li', Ok PNone), mkSt 2%N [mkCall (PObj 7) "getVideoInfoTag" [] [];
                                  mkCall (PObj 7) "setInfo" [PStr "video"; PDict [("year", PInt 1999)]] []] []) /\
    (forall s, exists t, getVideoInfoTag19 fresh_host li' s = (Ok (li', t), s) /\ getYear t = PInt 1999).
Proof.
  exact (k19_video_tag_cached N fresh_host (PObj 7) (PObj 0) (PInt 1999) 0%N 1%N [] []
           ltac:(discriminate) eq_refl).
Defined.

Lemma k20_first_or_default_witness :
  fst (music_getGenre (fun w c => (Ok (PList []), w)) (PObj 7) (mkSt 0%N [] [])) = Ok (PStr "") /\
  fst (video_getGenre (fun w c => (Ok (PList []), w)) (PObj 7) (mkSt 0%N [] [])) = Ok PNone.
Proof.
  exact (proj1 (k20_first_or_default N (fun w c => (Ok (PList []), w)) no_str (PObj 7) (mkSt 0%N [] []) [] 0%N)
           eq_refl).
Defined.
